(** * Stratagem AI (spy_app.py): tool functions and dashboard script

    A shallow embedding of [src/spy_app.py]: the three tool functions handed
    to the hosted agent ([web_search], [get_stock_info],
    [scrape_pricing_page]) and the top-level Streamlit script that checks the
    API keys, renders the inputs and runs the agent.

    Python values are modelled as the script uses them: a [str] is a list of
    Unicode code points, a dictionary is a finite map, and every call that
    leaves the script (Tavily, yfinance, requests, BeautifulSoup, OpenAI, the
    agent) is a field of a record of external behaviours, so that the
    theorems hold for whatever the providers answer. *)

From Stdlib Require Import ZArith NArith String Ascii DecimalString Lia.
From stdpp Require Import base option list gmap.

Local Open Scope N_scope.

(** ** Python strings *)

(** A Python [str] is a sequence of code points; [len], slicing and the
    whitespace tests of [strip] and [splitlines] all work per code point. *)
Abbreviation pystr := (list N).

(** An ASCII literal of the script as a [str]. *)
Fixpoint py (s : string) : pystr :=
  match s with
  | EmptyString => []
  | String a s' => N_of_ascii a :: py s'
  end.
Global Arguments py : simpl never.

Definition LF : N := 10.
Definition CR : N := 13.
Definition SPACE : N := 32.

(** [str.isspace] on one character, the class [str.strip()] removes
    (CPython's [_PyUnicode_IsWhitespace]). *)
Definition isspace (c : N) : bool :=
  ((0x09 <=? c) && (c <=? 0x0D)) || ((0x1C <=? c) && (c <=? 0x20))
  || (c =? 0x85) || (c =? 0xA0) || (c =? 0x1680)
  || ((0x2000 <=? c) && (c <=? 0x200A))
  || (c =? 0x2028) || (c =? 0x2029) || (c =? 0x202F) || (c =? 0x205F)
  || (c =? 0x3000).

(** The line boundaries of [str.splitlines]
    (CPython's [_PyUnicode_IsLinebreak]). *)
Definition is_linebreak (c : N) : bool :=
  ((0x0A <=? c) && (c <=? 0x0D)) || ((0x1C <=? c) && (c <=? 0x1E))
  || (c =? 0x85) || (c =? 0x2028) || (c =? 0x2029).

(** [s.lstrip()], [s.rstrip()] and [s.strip()] without argument. *)
Fixpoint lstrip (s : pystr) : pystr :=
  match s with
  | [] => []
  | c :: s' => if isspace c then lstrip s' else s
  end.

Definition rstrip (s : pystr) : pystr := reverse (lstrip (reverse s)).

Definition strip (s : pystr) : pystr := rstrip (lstrip s).

(** [s.splitlines()]: a line ends at a line boundary, [\r\n] counts as one
    boundary, and a boundary at the very end opens no further line. *)
Fixpoint splitlines (s : pystr) : list pystr :=
  match s with
  | [] => []
  | c :: s' =>
    if is_linebreak c then
      [] :: (if c =? CR then
               match s' with
               | d :: s'' => if d =? LF then splitlines s'' else splitlines s'
               | [] => []
               end
             else splitlines s')
    else
      match splitlines s' with
      | line :: rest => (c :: line) :: rest
      | [] => [[c]]
      end
  end.

Fixpoint startswith (s prefix : pystr) : bool :=
  match prefix, s with
  | [], _ => true
  | a :: prefix', b :: s' => (a =? b) && startswith s' prefix'
  | _ :: _, [] => false
  end.

(** [s.split(sep)] for a non-empty separator: occurrences are found left to
    right and do not overlap; [skip] counts the characters of a separator
    just recognised that are still to be passed over. *)
Fixpoint split_from (sep : pystr) (skip : nat) (s : pystr) : list pystr :=
  match s with
  | [] => [[]]
  | c :: s' =>
    match skip with
    | S k => split_from sep k s'
    | O =>
      if startswith s sep then [] :: split_from sep (length sep - 1) s'
      else match split_from sep 0 s' with
           | piece :: pieces => (c :: piece) :: pieces
           | [] => [[c]]
           end
    end
  end.

Definition split (s sep : pystr) : list pystr := split_from sep 0 s.

(** [sep.join(items)] on a list of [str]. *)
Fixpoint join (sep : pystr) (items : list pystr) : pystr :=
  match items with
  | [] => []
  | x :: rest =>
    match rest with
    | [] => x
    | _ :: _ => x ++ sep ++ join sep rest
    end
  end.

(** Decimal text of an integer, as [str(n)] prints it. *)
Definition str_int (z : Z) : pystr := py (NilZero.string_of_int (Z.to_int z)).

(** ** The parsed page (BeautifulSoup) *)

(** A node of the parsed document: a text node, a tag with its children, or
    the place of an element that [decompose()] has destroyed. [decompose]
    detaches the element from its parent; the model leaves [Decomposed] in
    its place so that the positions of the elements found beforehand stay
    valid, and no later step looks at it. *)
#[local] Unset Elimination Schemes.
Inductive element :=
| NavigableString (s : pystr)
| Tag (name : pystr) (contents : list element)
| Decomposed.
#[local] Set Elimination Schemes.

(** A soup is the list of top-level nodes of the document; an element is
    designated by its position: the index among the top-level nodes, then
    the indices down through [contents]. *)
Abbreviation soup := (list element).
Abbreviation position := (list nat).

Fixpoint element_rect' (P : element → Type) (Q : list element → Type)
    (Hstr : ∀ s, P (NavigableString s))
    (Htag : ∀ n cs, Q cs → P (Tag n cs))
    (Hdec : P Decomposed)
    (Hnil : Q [])
    (Hcons : ∀ c cs, P c → Q cs → Q (c :: cs))
    (e : element) : P e :=
  match e with
  | NavigableString s => Hstr s
  | Tag n cs =>
    Htag n cs
      ((fix go (cs : list element) : Q cs :=
          match cs with
          | [] => Hnil
          | c :: cs' =>
            Hcons c cs' (element_rect' P Q Hstr Htag Hdec Hnil Hcons c) (go cs')
          end) cs)
  | Decomposed => Hdec
  end.

(** The positions, relative to [e], of [e] and of its descendants whose tag
    name is one of [names], in document order; the children are numbered
    from 0. *)
Fixpoint matching (names : list pystr) (e : element) : list position :=
  match e with
  | Tag n cs =>
    (if bool_decide (n ∈ names) then [[]] else [])
    ++ (fix children (i : nat) (cs : list element) : list position :=
          match cs with
          | [] => []
          | c :: cs' => (cons i <$> matching names c) ++ children (S i) cs'
          end) 0%nat cs
  | _ => []
  end.

(** The same walk over a list of sibling nodes, the first one at index [i]. *)
Fixpoint matching_from (names : list pystr) (i : nat) (cs : list element)
    : list position :=
  match cs with
  | [] => []
  | c :: cs' => (cons i <$> matching names c) ++ matching_from names (S i) cs'
  end.

(** [soup(names)], that is [soup.find_all(names)]: every element of the
    document with one of the names. *)
Definition find_all (names : list pystr) (doc : soup) : list position :=
  matching_from names 0 doc.

(** [element.decompose()] for the element at position [p] under [e]. *)
Fixpoint decompose_at (p : position) (e : element) : element :=
  match p with
  | [] => Decomposed
  | i :: p' =>
    match e with
    | Tag n cs => Tag n (alter (decompose_at p') i cs)
    | _ => e
    end
  end.

Definition decompose (p : position) (doc : soup) : soup :=
  match p with
  | [] => doc
  | i :: p' => alter (decompose_at p') i doc
  end.

(** [get_text()]: the text nodes in document order, with no separator. *)
Fixpoint element_text (e : element) : pystr :=
  match e with
  | NavigableString s => s
  | Tag _ cs => concat (element_text <$> cs)
  | Decomposed => []
  end.

Definition get_text (doc : soup) : pystr := concat (element_text <$> doc).

(** The cleaning of lines 111-116: destroy script and style elements, take
    the text, strip each line, cut lines at double spaces, strip the
    phrases, drop the empty ones, join with newlines, keep 5000
    characters. *)
Definition page_text (doc : soup) : pystr :=
  let doc := foldl (λ doc script, decompose script doc) doc
                   (find_all [py "script"; py "style"] doc) in
  let text := get_text doc in
  let lines := strip <$> splitlines text in
  let chunks := line ← lines; strip <$> split line (py "  ") in
  take 5000 (join [LF] (filter (λ chunk, chunk ≠ []) chunks)).

(** ** Exceptions and the calls that leave the script *)

(** An instance of a subclass of [Exception]; [exc_str] is [str(e)], the
    text an f-string prints for [{e}]. *)
Record exception := Exception { exc_class : string; exc_str : pystr }.

(** What a call returns to its caller. *)
Inductive outcome (A : Type) :=
| Returns (a : A)
| Raises (e : exception).
Arguments Returns {A} a.
Arguments Raises {A} e.

Global Instance outcome_ret : MRet outcome := λ A a, Returns a.
Global Instance outcome_bind : MBind outcome := λ A B f m,
  match m with
  | Returns a => f a
  | Raises e => Raises e
  end.

(** What the script does that can be seen from outside, in order: a
    Streamlit display call with its main text, a toast, an input widget, the
    download button, and the objects it constructs or calls. *)
Inductive event :=
| St (call : string) (text : pystr)
| Toast (text icon : pystr)
| Input (widget : string) (label : pystr)
| DownloadButton (label data file_name mime : pystr)
| NewOpenAI (model : pystr) (api_key : option pystr)
| NewTavilyClient (api_key : option pystr)
| NewFunctionTool (fn : string)
| NewAgent (system_prompt : pystr)
| AgentChat (message : pystr).

(** How a piece of the script ends: with a value, with an exception that
    nothing caught, or in [st.stop()], which ends the script run and is not
    an [Exception]. *)
Inductive result (A : Type) :=
| Ok (a : A)
| Error (e : exception)
| Stopped.
Arguments Ok {A} a.
Arguments Error {A} e.
Arguments Stopped {A}.

(** A computation of the script: the events it produced and how it ended. *)
Definition Run (A : Type) : Type := list event * result A.

Global Instance Run_ret : MRet Run := λ A a, ([], Ok a).
Global Instance Run_bind : MBind Run := λ A B f m,
  match m with
  | (log, Ok a) => let '(log', r) := f a in (log ++ log', r)
  | (log, Error e) => (log, Error e)
  | (log, Stopped) => (log, Stopped)
  end.

Definition emit (ev : event) : Run unit := ([ev], Ok tt).

Definition call {A} (o : outcome A) : Run A :=
  ([], match o with Returns a => Ok a | Raises e => Error e end).

Definition st_stop {A} : Run A := ([], Stopped).

(** [try: body  except Exception as e: handler]. *)
Definition try_except {A} (body : Run A) (handler : exception → Run A) : Run A :=
  match body with
  | (log, Error e) => let '(log', r) := handler e in (log ++ log', r)
  | _ => body
  end.

Global Arguments emit ev /.
Global Arguments call {A} !o /.
Global Arguments st_stop {A} /.
Global Arguments try_except {A} !body handler /.

(** ** Python values in provider responses *)

(** Values without parts; a float is kept as the text [repr] gives it. *)
Inductive scalar :=
| PyNone
| PyBool (b : bool)
| PyInt (z : Z)
| PyFloat (repr : pystr)
| PyStr (s : pystr).

(** A decoded JSON document; a dictionary keeps its entries in order. *)
#[local] Unset Elimination Schemes.
Inductive pyobj :=
| Atom (v : scalar)
| PyList (items : list pyobj)
| PyDict (entries : list (pystr * pyobj)).
#[local] Set Elimination Schemes.

(** [format(v, '')], what an f-string prints for [{v}]. *)
Definition str_scalar (v : scalar) : pystr :=
  match v with
  | PyNone => py "None"
  | PyBool true => py "True"
  | PyBool false => py "False"
  | PyInt z => str_int z
  | PyFloat repr => repr
  | PyStr s => s
  end.

Definition type_name (v : pyobj) : pystr :=
  match v with
  | Atom PyNone => py "NoneType"
  | Atom (PyBool _) => py "bool"
  | Atom (PyInt _) => py "int"
  | Atom (PyFloat _) => py "float"
  | Atom (PyStr _) => py "str"
  | PyList _ => py "list"
  | PyDict _ => py "dict"
  end.

Definition QUOTE : pystr := py "'".

Definition KeyError (key : pystr) : exception :=
  Exception "KeyError" (QUOTE ++ key ++ QUOTE).

Definition TypeError (msg : pystr) : exception := Exception "TypeError" msg.

Fixpoint entry (key : pystr) (entries : list (pystr * pyobj)) : option pyobj :=
  match entries with
  | [] => None
  | (k, v) :: rest => if decide (k = key) then Some v else entry key rest
  end.

(** [v[key]] for a string key that prints as itself between quotes (the
    script only uses the literals [results] and [content]). *)
Definition getitem (v : pyobj) (key : pystr) : outcome pyobj :=
  match v with
  | PyDict entries =>
    match entry key entries with
    | Some item => Returns item
    | None => Raises (KeyError key)
    end
  | PyList _ =>
    Raises (TypeError (py "list indices must be integers or slices, not str"))
  | Atom (PyStr _) =>
    Raises (TypeError (py "string indices must be integers, not 'str'"))
  | _ =>
    Raises (TypeError (QUOTE ++ type_name v ++ QUOTE ++ py " object is not subscriptable"))
  end.

(** [for obj in v]: the objects the loop sees. *)
Definition iterate (v : pyobj) : outcome (list pyobj) :=
  match v with
  | PyList items => Returns items
  | PyDict entries => Returns ((λ kv, Atom (PyStr kv.1)) <$> entries)
  | Atom (PyStr s) => Returns ((λ c, Atom (PyStr [c])) <$> s)
  | _ =>
    Raises (TypeError (QUOTE ++ type_name v ++ QUOTE ++ py " object is not iterable"))
  end.

(** The items of [sep.join(items)] must all be [str]. *)
Fixpoint str_items (i : nat) (items : list pyobj) : outcome (list pystr) :=
  match items with
  | [] => Returns []
  | Atom (PyStr s) :: rest => strs ← str_items (S i) rest; mret (s :: strs)
  | v :: _ =>
    Raises (TypeError (py "sequence item " ++ str_int (Z.of_nat i)
                       ++ py ": expected str instance, " ++ type_name v
                       ++ py " found"))
  end.

Definition str_join (sep : pystr) (items : list pyobj) : outcome pystr :=
  strs ← str_items 0 items; mret (join sep strs).

(** ** Providers *)

Record search_request := { query : pystr; search_depth : pystr }.

Record get_request := {
  url : pystr;
  headers : list (pystr * pystr);
  timeout : Z
}.

(** A response of [requests.get]: the status and the body bytes. *)
Record http_response := { status_code : Z; content : list Byte.byte }.

Record TavilyClient := { tavily_api_key : option pystr }.

Record Ticker := { symbol : pystr }.

Record OpenAI := { model : pystr; api_key : option pystr }.

(** [FunctionTool.from_defaults(fn=f)]: the function with its name and
    docstring. *)
Record FunctionTool := {
  tool_name : string;
  tool_doc : pystr;
  tool_fn : pystr → Run pystr
}.

Record OpenAIAgent := {
  tools : list FunctionTool;
  llm : OpenAI;
  verbose : bool;
  system_prompt : pystr
}.

Record AgentChatResponse := { response_text : pystr }.

(** Everything the script calls and does not define: each provider answers
    a request with a value or with an exception; [new_OpenAI] and
    [new_TavilyClient] are what the two client constructors do with their
    arguments, and [str_upper] is [str.upper]. [FunctionTool.from_defaults]
    and [OpenAIAgent.from_tools] only assemble the objects below. *)
Record externals := {
  tavily_search : TavilyClient → search_request → outcome pyobj;
  yf_Ticker : pystr → outcome Ticker;
  ticker_info : Ticker → outcome (gmap pystr scalar);
  requests_get : get_request → outcome http_response;
  BeautifulSoup : list Byte.byte → pystr → outcome soup;
  new_OpenAI : OpenAI → outcome unit;
  new_TavilyClient : TavilyClient → outcome unit;
  agent_chat : OpenAIAgent → pystr → outcome AgentChatResponse;
  str_upper : pystr → pystr
}.

(** ** The three tools (lines 79-118) *)

Section Tools.
Variable x : externals.
Variable tavily : TavilyClient.

Definition web_search (query : pystr) : Run pystr :=
  emit (Toast ([0x1F30D] ++ py " Searching Google: " ++ query ++ py "...")
              [0x1F50D]);;
  try_except
    (response ← call (tavily_search x tavily
                        {| query := query; search_depth := py "advanced" |});
     results ← call (getitem response (py "results"));
     objs ← call (iterate results);
     context ← call (mapM (λ obj, getitem obj (py "content")) objs);
     call (str_join [LF; LF] context))
    (λ e, mret (py "Search failed: " ++ exc_str e)).

Definition INDENT : pystr := py "        ".

(** [info.get(key, 'N/A')]. *)
Definition info_get (info : gmap pystr scalar) (key : pystr) : scalar :=
  default (PyStr (py "N/A")) (info !! key).

(** The f-string of lines 95-100. *)
Definition quote_text (info : gmap pystr scalar) : pystr :=
  [LF]
  ++ INDENT ++ py "Current Price: $"
  ++ str_scalar (info_get info (py "currentPrice")) ++ [LF]
  ++ INDENT ++ py "Market Cap: $"
  ++ str_scalar (info_get info (py "marketCap")) ++ [LF]
  ++ INDENT ++ py "52 Week High: $"
  ++ str_scalar (info_get info (py "fiftyTwoWeekHigh")) ++ [LF]
  ++ INDENT ++ py "Recommendation: "
  ++ str_scalar (info_get info (py "recommendationKey")) ++ [LF]
  ++ INDENT.

Definition get_stock_info (ticker : pystr) : Run pystr :=
  emit (Toast ([0x1F4C8] ++ py " Reading Market Data: " ++ ticker ++ py "...")
              [0x1F4CA]);;
  try_except
    (stock ← call (yf_Ticker x ticker);
     info ← call (ticker_info x stock);
     mret (quote_text info))
    (λ e, mret (py "Stock fetch failed: " ++ exc_str e)).

Definition scrape_pricing_page (url : pystr) : Run pystr :=
  emit (Toast ([0x1F440] ++ py " Analyzing Website: " ++ url ++ py "...")
              [0x1F578; 0xFE0F]);;
  try_except
    (let headers := [(py "User-Agent", py "Mozilla/5.0")] in
     response ← call (requests_get x
                        {| url := url; headers := headers; timeout := 10 |});
     soup ← call (BeautifulSoup x (content response) (py "html.parser"));
     mret (page_text soup))
    (λ e, mret (py "Error scraping: " ++ exc_str e)).

End Tools.

(** ** The script (lines 12-74 and 120-215) *)

(** A text given line by line, as a triple-quoted literal holds it. *)
Definition text (lines : list pystr) : pystr := join [LF] lines.

(** The style sheet passed to the first [st.markdown] (lines 17-59). *)
Definition custom_css : pystr :=
  text
    [[];
     py "    <style>";
     py "    /* Main Background adjustments */";
     py "    .stApp {";
     py "        background-color: #0E1117;";
     py "    }";
     py "    ";
     py "    /* Header Styling */";
     py "    h1 {";
     py "        font-family: 'Helvetica Neue', sans-serif;";
     py "        font-weight: 700;";
     py "        color: #FFFFFF;";
     py "    }";
     py "    h3 {";
     py "        color: #A0AAB5;";
     py "    }";
     py "    ";
     py "    /* Custom Button Styling */";
     py "    div.stButton > button:first-child {";
     py "        background: linear-gradient(to right, #00C853, #64DD17);";
     py "        color: white;";
     py "        font-weight: bold;";
     py "        border: none;";
     py "        border-radius: 8px;";
     py "        padding: 0.5em 1em;";
     py "        transition: all 0.2s ease-in-out;";
     py "    }";
     py "    div.stButton > button:first-child:hover {";
     py "        transform: scale(1.05);";
     py "        box-shadow: 0px 4px 15px rgba(0, 200, 83, 0.4);";
     py "    }";
     [];
     py "    /* Card-like styling for report */";
     py "    .report-card {";
     py "        background-color: #1E1E1E;";
     py "        padding: 20px;";
     py "        border-radius: 10px;";
     py "        border-left: 5px solid #00C853;";
     py "        box-shadow: 0 4px 6px rgba(0, 0, 0, 0.3);";
     py "        color: #E0E0E0;";
     py "    }";
     py "    </style>";
     []].

Global Arguments custom_css : simpl never.

(** What the script reads when a run starts: the environment after
    [load_dotenv()], the two operations it uses on [st.secrets], and the
    state of the three input widgets. *)
Record session := {
  environ : gmap pystr pystr;
  secrets_contains : pystr → outcome bool;
  secrets_getitem : pystr → outcome pystr;
  target_asset : pystr;
  objective : option pystr;
  start_pressed : bool
}.

(** Truth value of a string that may be [None]: [None] and the empty string
    are false. *)
Definition truthy (v : option pystr) : bool :=
  match v with
  | Some (_ :: _) => true
  | _ => false
  end.

(** [f"{v}"] for the selection of the pills, which is [None] when nothing
    is selected. *)
Definition str_option (v : option pystr) : pystr :=
  match v with
  | Some s => s
  | None => py "None"
  end.

Definition MISSING_KEYS : pystr :=
  [0x1F6A8] ++ py " Missing API Keys! Please check your .env file.".

Definition TARGET_REQUIRED : pystr :=
  [0x26A0; 0xFE0F] ++ py " Protocol Halted: Please define a Target Asset.".

Definition DQUOTE : N := 34.

Section Script.
Variable x : externals.
Variable s : session.

(** Lines 62-74: resolve the two keys and build the two clients. *)
Definition setup_api_keys : Run (OpenAI * TavilyClient) :=
  let openai_key := environ s !! py "OPENAI_API_KEY" in
  let tavily_key := environ s !! py "TAVILY_API_KEY" in
  '(openai_key, tavily_key) ←
    (if negb (truthy openai_key) then
       found ← call (secrets_contains s (py "OPENAI_API_KEY"));
       if (found : bool) then
         openai_key ← call (secrets_getitem s (py "OPENAI_API_KEY"));
         tavily_key ← call (secrets_getitem s (py "TAVILY_API_KEY"));
         mret (Some openai_key, Some tavily_key)
       else
         emit (St "error" MISSING_KEYS);;
         st_stop
     else mret (openai_key, tavily_key));
  let llm := {| model := py "gpt-4o-mini"; api_key := openai_key |} in
  emit (NewOpenAI (model llm) (api_key llm));;
  call (new_OpenAI x llm);;
  let tavily := {| tavily_api_key := tavily_key |} in
  emit (NewTavilyClient tavily_key);;
  call (new_TavilyClient x tavily);;
  mret (llm, tavily).

(** Lines 123-148: the sidebar with the three inputs, then the title. *)
Definition build_ui : Run (pystr * option pystr * bool) :=
  emit (St "image" (py "https://cdn-icons-png.flaticon.com/512/825/825590.png"));;
  emit (St "markdown" (py "## Control Center"));;
  emit (St "markdown" (py "---"));;
  emit (Input "text_input" ([0x1F3AF] ++ py " Target Asset"));;
  let target_company := target_asset s in
  emit (Input "pills" (py "Select Objective"));;
  let mission_goal := objective s in
  emit (St "markdown" (py "---"));;
  emit (Input "button" (py "Initialize Stratagem " ++ [0x1F680]));;
  let start_btn := start_pressed s in
  emit (St "caption" (py "v2.1.0 | Enterprise Edition"));;
  emit (St "columns" []);;
  emit (St "title" (py "Stratagem AI"));;
  emit (St "markdown" (py "### Market Intelligence & Competitor Reconnaissance"));;
  emit (St "markdown" []);;
  mret (target_company, mission_goal, start_btn).

Definition INDENT12 : pystr := py "            ".

Definition agent_system_prompt (target_company : pystr)
    (mission_goal : option pystr) : pystr :=
  text
    [[];
     INDENT12 ++ py "You are Stratagem, an elite Market Intelligence Analyst.";
     INDENT12 ++ py "Target: " ++ target_company;
     INDENT12 ++ py "Goal: " ++ str_option mission_goal;
     INDENT12;
     INDENT12 ++ py "Format your report cleanly with Markdown headers (##), bullet points, and bold text for key metrics.";
     INDENT12 ++ py "Always end with a 'Strategic Verdict' section.";
     INDENT12].

Definition agent_message (target_company : pystr)
    (mission_goal : option pystr) : pystr :=
  py "Execute comprehensive analysis on " ++ target_company
  ++ py ". Focus area: " ++ str_option mission_goal.

Definition report_card (target_company : pystr)
    (mission_goal : option pystr) : pystr :=
  text
    [[];
     py "    <div class=" ++ [DQUOTE] ++ py "report-card" ++ [DQUOTE] ++ py ">";
     py "        <h2>" ++ [0x1F4C2] ++ py " Intelligence Dossier: "
       ++ str_upper x target_company ++ py "</h2>";
     py "        <p><strong>Objective:</strong> " ++ str_option mission_goal
       ++ py "</p>";
     py "    </div>";
     py "    "].

Definition report_filename (target_company : pystr) : pystr :=
  py "Stratagem_" ++ target_company ++ py "_Report.md".

(** Lines 164-182: the three tools and the agent built from them. *)
Definition stratagem_tools (tavily : TavilyClient) : list FunctionTool :=
  [ {| tool_name := "web_search";
       tool_doc := py "Useful for finding latest news, leaks, or product announcements.";
       tool_fn := web_search x tavily |};
    {| tool_name := "get_stock_info";
       tool_doc := py "Useful for getting live stock prices and financial ratios.";
       tool_fn := get_stock_info x |};
    {| tool_name := "scrape_pricing_page";
       tool_doc := py "Useful for reading specific website pages to get detailed text.";
       tool_fn := scrape_pricing_page x |} ].

Definition stratagem_agent (llm : OpenAI) (tavily : TavilyClient)
    (target_company : pystr) (mission_goal : option pystr) : OpenAIAgent :=
  {| tools := stratagem_tools tavily;
     llm := llm;
     verbose := true;
     system_prompt := agent_system_prompt target_company mission_goal |}.

(** Lines 152-215: run the agent when the button was pressed with a
    target, warn when it was pressed without one. *)
Definition main_agent_logic (llm : OpenAI) (tavily : TavilyClient)
    (target_company : pystr) (mission_goal : option pystr)
    (start_btn : bool) : Run unit :=
  if start_btn && truthy (Some target_company) then
    emit (St "divider" []);;
    emit (St "status" ([0x26A1] ++ py " **Stratagem Active:** Analyzing "
                       ++ target_company ++ py "..."));;
    emit (St "columns" []);;
    emit (St "write" ([0x2699; 0xFE0F] ++ py " **Initializing Agents...**"));;
    emit (NewFunctionTool "web_search");;
    emit (NewFunctionTool "get_stock_info");;
    emit (NewFunctionTool "scrape_pricing_page");;
    let agent := stratagem_agent llm tavily target_company mission_goal in
    emit (NewAgent (system_prompt agent));;
    let message := agent_message target_company mission_goal in
    emit (AgentChat message);;
    response ← call (agent_chat x agent message);
    emit (St "status.update" ([0x2705] ++ py " Analysis Complete"));;
    emit (St "markdown" (report_card target_company mission_goal));;
    emit (St "markdown" (py "---"));;
    emit (St "markdown" (response_text response));;
    emit (St "markdown" (py "---"));;
    let filename := report_filename target_company in
    emit (DownloadButton ([0x1F4E5] ++ py " Export Dossier (Markdown)")
                         (response_text response) filename
                         (py "text/markdown"))
  else if start_btn && negb (truthy (Some target_company)) then
    emit (St "warning" TARGET_REQUIRED)
  else mret tt.

(** One run of the script, top to bottom. *)
Definition script : Run unit :=
  emit (St "set_page_config" (py "Stratagem AI"));;
  emit (St "markdown" custom_css);;
  '(llm, tavily) ← setup_api_keys;
  '(target_company, mission_goal, start_btn) ← build_ui;
  main_agent_logic llm tavily target_company mission_goal start_btn.

End Script.

(** ** Reading a run *)

Definition events {A} (r : Run A) : list event := r.1.
Definition ending {A} (r : Run A) : result A := r.2.

Definition is_agent_chat (ev : event) : bool :=
  match ev with AgentChat _ => true | _ => false end.

Definition is_new_agent (ev : event) : bool :=
  match ev with NewAgent _ => true | _ => false end.

Definition is_input (ev : event) : bool :=
  match ev with Input _ _ => true | _ => false end.

Definition is_download (ev : event) : bool :=
  match ev with DownloadButton _ _ _ _ => true | _ => false end.

(** How many events of a kind a run produced. *)
Definition count (kind : event → bool) (log : list event) : nat :=
  length (List.filter kind log).

Definition is_call (name : string) (ev : event) : bool :=
  match ev with
  | St call _ => String.eqb call name
  | _ => false
  end.

(** ** Vocabulary of the statements *)

(** [sub in s] on strings. *)
Definition contains (s sub : pystr) : Prop := ∃ before after, s = before ++ sub ++ after.

(** A string with no line boundary in it: what [splitlines] returns as one
    line. *)
Definition single_line (s : pystr) : Prop := Forall (λ c, is_linebreak c = false) s.

(** The same test as a function. *)
Definition single_lineb (s : pystr) : bool := forallb (λ c, negb (is_linebreak c)) s.

(** The document with every element named in [names] destroyed, described
    by recursion on the tree. *)
Fixpoint without (names : list pystr) (e : element) : element :=
  match e with
  | Tag n cs =>
    if bool_decide (n ∈ names) then Decomposed else Tag n (without names <$> cs)
  | _ => e
  end.

(** Two documents that are the same outside the elements named in [names]:
    such elements sit at the same places, whatever they contain. *)
#[local] Unset Elimination Schemes.
Inductive same_outside (names : list pystr) : element → element → Prop :=
| same_string s :
    same_outside names (NavigableString s) (NavigableString s)
| same_decomposed :
    same_outside names Decomposed Decomposed
| same_hidden n cs1 cs2 :
    n ∈ names → same_outside names (Tag n cs1) (Tag n cs2)
| same_tag n cs1 cs2 :
    n ∉ names → Forall2 (same_outside names) cs1 cs2 →
    same_outside names (Tag n cs1) (Tag n cs2).
#[local] Set Elimination Schemes.

(** A run that ends with a text satisfying [P]. *)
Definition returns_text (r : Run pystr) (P : pystr → Prop) : Prop :=
  ∃ log out, r = (log, Ok out) ∧ P out.

(** A text that starts with [prefix] and holds the message of [e]. *)
Definition error_text (prefix : pystr) (e : exception) (out : pystr) : Prop :=
  prefix `prefix_of` out ∧ contains out (exc_str e).

(** The request [web_search] sends for a query (line 83). *)
Definition search_request_of (q : pystr) : search_request :=
  {| query := q; search_depth := py "advanced" |}.

(** The request [scrape_pricing_page] sends for an address (lines 108-109). *)
Definition get_request_of (u : pystr) : get_request :=
  {| url := u; headers := [(py "User-Agent", py "Mozilla/5.0")]; timeout := 10 |}.

(** The provider behind each tool raises [e] while the tool runs. *)
Definition search_raises (x : externals) (tavily : TavilyClient) (q : pystr)
    (e : exception) : Prop :=
  tavily_search x tavily (search_request_of q) = Raises e.

Definition quote_raises (x : externals) (t : pystr) (e : exception) : Prop :=
  yf_Ticker x t = Raises e
  ∨ ∃ stock, yf_Ticker x t = Returns stock ∧ ticker_info x stock = Raises e.

Definition page_raises (x : externals) (u : pystr) (e : exception) : Prop :=
  requests_get x (get_request_of u) = Raises e
  ∨ ∃ r, requests_get x (get_request_of u) = Returns r
         ∧ BeautifulSoup x (content r) (py "html.parser") = Raises e.

(** A result item that has the text [c] under [content]. *)
Definition has_content (item : pyobj) (c : pystr) : Prop :=
  ∃ fields, item = PyDict fields
            ∧ entry (py "content") fields = Some (Atom (PyStr c)).

(** A successful answer of the search provider: a mapping whose [results]
    is a list of items, each with a textual [content]; [contents] are these
    texts in the order of the answer. *)
Definition search_answer (answer : pyobj) (contents : list pystr) : Prop :=
  ∃ entries items,
    answer = PyDict entries
    ∧ entry (py "results") entries = Some (PyList items)
    ∧ Forall2 has_content items contents.

(** The lines of texts separated by one empty line. *)
Fixpoint blank_separated (items : list pystr) : list pystr :=
  match items with
  | [] => []
  | c :: rest =>
    match rest with
    | [] => [c]
    | _ :: _ => c :: [] :: blank_separated rest
    end
  end.

(** The text a field is rendered with: its value, or [N/A] when the answer
    has no such field. *)
Definition field_text (info : gmap pystr scalar) (key : pystr) : pystr :=
  match info !! key with
  | Some v => str_scalar v
  | None => py "N/A"
  end.

(** The four keys [get_stock_info] reads. *)
Definition FIELDS : list pystr :=
  [py "currentPrice"; py "marketCap"; py "fiftyTwoWeekHigh"; py "recommendationKey"].

(** An answer whose four fields, where present, print on one line. *)
Definition one_line_fields (info : gmap pystr scalar) : Prop :=
  ∀ key v, key ∈ FIELDS → info !! key = Some v → single_line (str_scalar v).

(** The tag names [scrape_pricing_page] destroys. *)
Definition HIDDEN : list pystr := [py "script"; py "style"].

(** The text outside the named elements, by recursion on the document. *)
Fixpoint text_outside (names : list pystr) (e : element) : pystr :=
  match e with
  | NavigableString s => s
  | Tag n cs =>
    if bool_decide (n ∈ names) then [] else concat (text_outside names <$> cs)
  | Decomposed => []
  end.

(** ** Sample providers and sessions *)

Definition sample_page : soup :=
  [Tag (py "html")
     [Tag (py "head") [Tag (py "style") [NavigableString (py "h1 {color: red}")]];
      Tag (py "body")
        [Tag (py "h1") [NavigableString (py "  Pricing  ")];
         NavigableString [LF; LF];
         Tag (py "script") [NavigableString (py "track()")];
         Tag (py "p") [NavigableString (py "Basic  $5 ")]]]].

Definition sample_search : pyobj :=
  PyDict
    [(py "query", Atom (PyStr (py "Nvidia news")));
     (py "results",
      PyList
        [PyDict [(py "title", Atom (PyStr (py "One")));
                 (py "content", Atom (PyStr (py "Nvidia ships a new GPU.")))];
         PyDict [(py "content", Atom (PyStr (py "Shares rise.")))]])].

Definition sample_info : gmap pystr scalar :=
  {[ py "currentPrice" := PyFloat (py "135.5");
     py "marketCap" := PyInt 3300000000000 ]}.

(** ASCII letters to upper case; enough for the sample target names. *)
Definition ascii_upper (s : pystr) : pystr :=
  (λ c, if (97 <=? c) && (c <=? 122) then c - 32 else c) <$> s.

(** Providers that all answer. *)
Definition answering : externals :=
  {| tavily_search := λ _ _, Returns sample_search;
     yf_Ticker := λ t, Returns {| symbol := t |};
     ticker_info := λ _, Returns sample_info;
     requests_get := λ _, Returns {| status_code := 404; content := [] |};
     BeautifulSoup := λ _ _, Returns sample_page;
     new_OpenAI := λ _, Returns tt;
     new_TavilyClient := λ _, Returns tt;
     agent_chat := λ _ _, Returns {| response_text := py "## Strategic Verdict" |};
     str_upper := ascii_upper |}.

Definition timed_out : exception := Exception "TimeoutError" (py "timed out").

(** Providers that all raise. *)
Definition failing : externals :=
  {| tavily_search := λ _ _, Raises timed_out;
     yf_Ticker := λ _, Raises timed_out;
     ticker_info := λ _, Raises timed_out;
     requests_get := λ _, Raises timed_out;
     BeautifulSoup := λ _ _, Raises timed_out;
     new_OpenAI := λ _, Raises timed_out;
     new_TavilyClient := λ _, Raises timed_out;
     agent_chat := λ _ _, Raises timed_out;
     str_upper := ascii_upper |}.

Definition no_secrets_file : exception :=
  Exception "StreamlitSecretNotFoundError" (py "No secrets found.").

(** A session with both keys in the environment and no secrets file. *)
Definition session_with (target : pystr) (pressed : bool) : session :=
  {| environ := {[ py "OPENAI_API_KEY" := py "sk-test";
                   py "TAVILY_API_KEY" := py "tvly-test" ]};
     secrets_contains := λ _, Raises no_secrets_file;
     secrets_getitem := λ _, Raises no_secrets_file;
     target_asset := target;
     objective := Some (py "General Analysis");
     start_pressed := pressed |}.

(** The providers of [x], with the search answering [answer]. *)
Definition searching (x : externals) (answer : pyobj) : externals :=
  {| tavily_search := λ _ _, Returns answer;
     yf_Ticker := yf_Ticker x;
     ticker_info := ticker_info x;
     requests_get := requests_get x;
     BeautifulSoup := BeautifulSoup x;
     new_OpenAI := new_OpenAI x;
     new_TavilyClient := new_TavilyClient x;
     agent_chat := agent_chat x;
     str_upper := str_upper x |}.

Definition empty_search : list (pystr * pyobj) :=
  [(py "query", Atom (PyStr (py "zzz"))); (py "results", PyList [])].

(** The text the quote lookup returns on the sample answer. *)
Definition sample_quote : pystr :=
  text [[];
        py "        Current Price: $135.5";
        py "        Market Cap: $3300000000000";
        py "        52 Week High: $N/A";
        py "        Recommendation: N/A";
        py "        "].

(** A fetch that refuses the address, with the message [requests] gives for
    an address without scheme: the address is part of the message. *)
Definition missing_schema (u : pystr) : exception :=
  Exception "MissingSchema"
    (py "Invalid URL '" ++ u ++ py "': No scheme supplied. Perhaps you meant https://"
     ++ u ++ py "?").

Definition refusing : externals :=
  {| tavily_search := tavily_search failing;
     yf_Ticker := yf_Ticker failing;
     ticker_info := ticker_info failing;
     requests_get := λ request, Raises (missing_schema (url request));
     BeautifulSoup := BeautifulSoup failing;
     new_OpenAI := new_OpenAI failing;
     new_TavilyClient := new_TavilyClient failing;
     agent_chat := agent_chat failing;
     str_upper := str_upper failing |}.

Definition long_address : pystr := replicate 5000 97.

(** The providers of [x], with the fetch answering [r]. *)
Definition fetching (x : externals) (r : http_response) : externals :=
  {| tavily_search := tavily_search x;
     yf_Ticker := yf_Ticker x;
     ticker_info := ticker_info x;
     requests_get := λ _, Returns r;
     BeautifulSoup := BeautifulSoup x;
     new_OpenAI := new_OpenAI x;
     new_TavilyClient := new_TavilyClient x;
     agent_chat := agent_chat x;
     str_upper := str_upper x |}.


(** ** Vocabulary of the further properties *)

(** The model key is missing: the environment has none (or an empty one)
    and [st.secrets] answers that it has none either. *)
Definition model_key_missing (s : session) : Prop :=
  truthy (environ s !! py "OPENAI_API_KEY") = false
  ∧ secrets_contains s (py "OPENAI_API_KEY") = Returns false.

(** The text outside script and style elements, in document order. *)
Definition visible_text (doc : soup) : pystr :=
  concat (text_outside HIDDEN <$> doc).

(** The non-empty stripped phrases of a text: its lines, stripped, cut at
    double spaces, the pieces stripped, the empty ones dropped. *)
Definition phrases (text : pystr) : list pystr :=
  filter (λ chunk, chunk ≠ [])
    (line ← strip <$> splitlines text; strip <$> split line (py "  ")).

(** An item that has some value under [key]. *)
Definition has_entry (key : pystr) (item : pyobj) (v : pyobj) : Prop :=
  ∃ fields, item = PyDict fields ∧ entry key fields = Some v.

(** A session whose keys are in the secrets only. *)
Definition session_in_secrets (target : pystr) (pressed : bool) : session :=
  {| environ := {[ py "TAVILY_API_KEY" := py "tvly-env" ]};
     secrets_contains := λ _, Returns true;
     secrets_getitem := λ key, Returns (py "secret-" ++ key);
     target_asset := target;
     objective := Some (py "General Analysis");
     start_pressed := pressed |}.

(** A session with no model key anywhere. *)
Definition session_without_keys (target : pystr) (pressed : bool) : session :=
  {| environ := {[ py "OPENAI_API_KEY" := [] ]};
     secrets_contains := λ _, Returns false;
     secrets_getitem := λ key, Raises (KeyError key);
     target_asset := target;
     objective := Some (py "General Analysis");
     start_pressed := pressed |}.


(** A page with a script and blank text only. *)
Definition blank_page : soup :=
  [Tag (py "html")
     [Tag (py "script") [NavigableString (py "track()")];
      NavigableString ([LF; SPACE; 0xA0] ++ py "   ");
      Tag (py "body") [NavigableString [LF]]]].

(** Answers of the search provider that are not what the tool expects. *)
Definition refusal_entries : list (pystr * pyobj) :=
  [(py "detail", Atom (PyStr (py "Unauthorized")))].

Definition untitled_entries : list (pystr * pyobj) :=
  [(py "results",
    PyList [PyDict [(py "content", Atom (PyStr (py "A")))];
            PyDict [(py "title", Atom (PyStr (py "B")))]])].

Definition null_content_entries : list (pystr * pyobj) :=
  [(py "results",
    PyList [PyDict [(py "content", Atom (PyStr (py "A")))];
            PyDict [(py "content", Atom PyNone)]])].

(** The providers of [x], with the market data answering [info]. *)
Definition quoting (x : externals) (info : gmap pystr scalar) : externals :=
  {| tavily_search := tavily_search x;
     yf_Ticker := yf_Ticker x;
     ticker_info := λ _, Returns info;
     requests_get := requests_get x;
     BeautifulSoup := BeautifulSoup x;
     new_OpenAI := new_OpenAI x;
     new_TavilyClient := new_TavilyClient x;
     agent_chat := agent_chat x;
     str_upper := str_upper x |}.

(** The providers of [x], with the parser answering [doc]. *)
Definition parsing (x : externals) (doc : soup) : externals :=
  {| tavily_search := tavily_search x;
     yf_Ticker := yf_Ticker x;
     ticker_info := ticker_info x;
     requests_get := requests_get x;
     BeautifulSoup := λ _ _, Returns doc;
     new_OpenAI := new_OpenAI x;
     new_TavilyClient := new_TavilyClient x;
     agent_chat := agent_chat x;
     str_upper := str_upper x |}.

(** ** Examples *)

Example py_ascii : py "N/A" = [78; 47; 65].
Proof. reflexivity. Qed.

Example strip_example : strip (py "  a b  ") = py "a b".
Proof. reflexivity. Qed.

Example splitlines_example :
  splitlines (py "a" ++ [CR; LF] ++ py "b" ++ [LF; LF] ++ py "c" ++ [LF])
  = [py "a"; py "b"; []; py "c"].
Proof. reflexivity. Qed.

Example split_example : split (py "a   b  ") (py "  ") = [py "a"; py " b"; []].
Proof. reflexivity. Qed.

Example join_example : join [LF] [py "a"; py "b"] = py "a" ++ [LF] ++ py "b".
Proof. reflexivity. Qed.

Example str_int_example : str_int (-2040)%Z = py "-2040".
Proof. reflexivity. Qed.

Example find_all_sample :
  find_all [py "script"; py "style"] sample_page = [[0; 0; 0]; [0; 1; 2]]%nat.
Proof. reflexivity. Qed.

Example page_text_sample :
  page_text sample_page = py "Pricing" ++ [LF] ++ py "Basic" ++ [LF] ++ py "$5".
Proof. vm_compute. reflexivity. Qed.

Example web_search_sample :
  ending (web_search answering {| tavily_api_key := None |} (py "Nvidia news"))
  = Ok (py "Nvidia ships a new GPU." ++ [LF; LF] ++ py "Shares rise.").
Proof. vm_compute. reflexivity. Qed.

Example web_search_timeout :
  ending (web_search failing {| tavily_api_key := None |} (py "Nvidia news"))
  = Ok (py "Search failed: timed out").
Proof. vm_compute. reflexivity. Qed.

Example get_stock_info_sample :
  ending (get_stock_info answering (py "NVDA"))
  = Ok (text [[];
              py "        Current Price: $135.5";
              py "        Market Cap: $3300000000000";
              py "        52 Week High: $N/A";
              py "        Recommendation: N/A";
              py "        "]).
Proof. vm_compute. reflexivity. Qed.

Example scrape_sample :
  ending (scrape_pricing_page answering (py "https://example.com/pricing"))
  = Ok (py "Pricing" ++ [LF] ++ py "Basic" ++ [LF] ++ py "$5").
Proof. vm_compute. reflexivity. Qed.

Example script_sample_downloads :
  List.filter is_download (events (script answering (session_with (py "Nvidia") true)))
  = [DownloadButton ([0x1F4E5] ++ py " Export Dossier (Markdown)")
                    (py "## Strategic Verdict")
                    (py "Stratagem_Nvidia_Report.md")
                    (py "text/markdown")].
Proof. vm_compute. reflexivity. Qed.

Example report_filename_Nvidia :
  report_filename (py "Nvidia") = py "Stratagem_Nvidia_Report.md".
Proof. reflexivity. Qed.

(** ** Facts about the string functions *)

Section StringFacts.
Implicit Types (s sub sep line : pystr) (c : N).

Lemma single_lineb_true s : single_lineb s = true ↔ single_line s.
Proof.
  unfold single_lineb, single_line. rewrite forallb_forall, Forall_forall.
  split; intros H c Hc.
  - apply list_elem_of_In, H in Hc. by destruct (is_linebreak c).
  - apply list_elem_of_In, H in Hc. by rewrite Hc.
Qed.

(** [lstrip], [rstrip] and [strip] only drop characters. *)
Lemma Forall_lstrip (P : N → Prop) s : Forall P s → Forall P (lstrip s).
Proof.
  induction 1 as [|c s Hc Hs IH]; simpl; [constructor|].
  destruct (isspace c); [done | by constructor].
Qed.

Lemma Forall_strip (P : N → Prop) s : Forall P s → Forall P (strip s).
Proof.
  intros H. unfold strip, rstrip.
  apply Forall_reverse, Forall_lstrip, Forall_reverse, Forall_lstrip, H.
Qed.

(** The pieces of [split] are made of characters of the string. *)
Lemma Forall_split_from (P : N → Prop) sep s :
  Forall P s → ∀ skip, Forall (Forall P) (split_from sep skip s).
Proof.
  induction 1 as [|c s Hc Hs IH]; intros skip; cbn [split_from].
  - repeat constructor.
  - destruct skip as [|k]; [|apply IH].
    destruct (startswith (c :: s) sep).
    + constructor; [constructor | apply IH].
    + specialize (IH 0%nat). destruct (split_from sep 0 s) as [|piece pieces].
      * repeat constructor; done.
      * inversion IH; subst. constructor; [by constructor | done].
Qed.

Lemma Forall_split (P : N → Prop) s sep :
  Forall P s → Forall (Forall P) (split s sep).
Proof. intros H. by apply Forall_split_from. Qed.

(** What [splitlines] does on a text that is one line, and on a line
    followed by [\n]. *)
Lemma splitlines_single_line s :
  single_line s → s ≠ [] → splitlines s = [s].
Proof.
  induction 1 as [|c s Hc Hs IH]; intros Hne; [done|].
  simpl. rewrite Hc. destruct s as [|d s]; [done|].
  rewrite IH; done.
Qed.

Lemma splitlines_line_LF line s :
  single_line line → splitlines (line ++ LF :: s) = line :: splitlines s.
Proof.
  induction 1 as [|c line Hc Hline IH]; [done|].
  simpl. rewrite Hc. simpl in IH. by rewrite IH.
Qed.

(** Every line [splitlines] returns is free of line boundaries. *)
Lemma splitlines_lines_single s : Forall single_line (splitlines s).
Proof.
  assert (∀ n s, (length s < n)%nat → Forall single_line (splitlines s)) as Hn.
  { intros n. induction n as [|n IH]; intros t Hlen; [lia|].
    destruct t as [|c t]; simpl; [constructor|].
    simpl in Hlen. destruct (is_linebreak c) eqn:Hc.
    - constructor; [constructor|].
      destruct (c =? CR); [|apply IH; lia].
      destruct t as [|d t]; [constructor|].
      simpl in Hlen. destruct (d =? LF); apply IH; simpl; lia.
    - assert (Forall single_line (splitlines t)) as Ht by (apply IH; lia).
      destruct (splitlines t) as [|line rest].
      + repeat constructor. done.
      + inversion Ht; subst. constructor; [by constructor | done]. }
  apply (Hn (S (length s))). lia.
Qed.

Lemma splitlines_single_nonempty s :
  single_line s → Forall (λ line, line ≠ []) (splitlines s).
Proof.
  intros Hs. destruct s as [|c s]; [constructor|].
  rewrite splitlines_single_line by done. by repeat constructor.
Qed.

(** Lines of a truncated [\n]-join of non-empty one-line chunks: none is
    empty, wherever the cut falls. *)
Lemma splitlines_take_join_nonempty (chunks : list pystr) :
  Forall (λ chunk, chunk ≠ [] ∧ single_line chunk) chunks →
  ∀ n, Forall (λ line, line ≠ []) (splitlines (take n (join [LF] chunks))).
Proof.
  induction 1 as [|chunk rest [Hne Hsl] Hrest IH]; intros n; simpl.
  - rewrite take_nil. constructor.
  - destruct rest as [|chunk' rest].
    + apply splitlines_single_nonempty. by apply Forall_take.
    + remember (join [LF] (chunk' :: rest)) as tail.
      destruct (decide (n ≤ length chunk)%nat) as [Hle|Hgt].
      * rewrite take_app_le by done.
        apply splitlines_single_nonempty. by apply Forall_take.
      * rewrite take_app_ge by lia.
        destruct (n - length chunk)%nat as [|m] eqn:Hm; [lia|].
        simpl. rewrite splitlines_line_LF by done.
        constructor; [done | apply IH].
Qed.

Lemma length_take_le_bound {A} (l : list A) n : (length (take n l) ≤ n)%nat.
Proof. rewrite length_take. lia. Qed.

End StringFacts.

(** ** Facts about the document functions *)

(** Induction on documents: the children of a tag satisfy the property. *)
Lemma element_ind' (P : element → Prop) :
  (∀ s, P (NavigableString s)) →
  (∀ n cs, Forall P cs → P (Tag n cs)) →
  P Decomposed →
  ∀ e, P e.
Proof.
  intros Hstr Htag Hdec.
  apply (element_rect' P (Forall P)); auto.
Qed.

Section DocumentFacts.
Variable names : list pystr.
Implicit Types (e c : element) (cs doc : soup) (p : position) (ps : list position).

Lemma matching_Tag n cs :
  matching names (Tag n cs)
  = (if bool_decide (n ∈ names) then [[]] else []) ++ matching_from names 0 cs.
Proof.
  simpl. f_equal. generalize 0%nat.
  induction cs as [|c cs' IH]; intros i; simpl; [done|]. by rewrite IH.
Qed.

(** Destroying below a destroyed element changes nothing. *)
Lemma decompose_at_Decomposed ps :
  foldl (λ e p, decompose_at p e) Decomposed ps = Decomposed.
Proof. induction ps as [|[|i p] ps IH]; simpl; done. Qed.

(** Positions under the child at index [i] touch that child only. *)
Lemma decompose_under_child i ps doc :
  foldl (λ doc p, decompose p doc) doc (cons i <$> ps)
  = alter (λ c, foldl (λ e p, decompose_at p e) c ps) i doc.
Proof.
  revert doc. induction ps as [|p ps IH]; intros doc; simpl.
  - symmetry. by apply list_alter_id.
  - rewrite IH. by rewrite list_alter_alter_eq.
Qed.

Lemma decompose_at_children n cs i ps :
  foldl (λ e p, decompose_at p e) (Tag n cs) (cons i <$> ps)
  = Tag n (foldl (λ doc p, decompose p doc) cs (cons i <$> ps)).
Proof.
  revert cs. induction ps as [|p ps IH]; intros cs; simpl; [done|].
  by rewrite IH.
Qed.

Lemma decompose_at_Tag n i todo :
  ∀ cs,
  foldl (λ e p, decompose_at p e) (Tag n cs) (matching_from names i todo)
  = Tag n (foldl (λ doc p, decompose p doc) cs (matching_from names i todo)).
Proof.
  revert i. induction todo as [|c todo IH]; intros i cs; simpl; [done|].
  rewrite !foldl_app, decompose_at_children. apply IH.
Qed.

(** Walking a list of siblings: once the loop is right on each of them, it
    is right on the list, whatever stands before it. *)
Lemma decompose_siblings todo :
  Forall (λ c, foldl (λ e p, decompose_at p e) c (matching names c)
               = without names c) todo →
  ∀ before,
  foldl (λ doc p, decompose p doc) (before ++ todo)
        (matching_from names (length before) todo)
  = before ++ (without names <$> todo).
Proof.
  induction 1 as [|c todo Hc Htodo IH]; intros before; simpl; [done|].
  rewrite foldl_app, decompose_under_child.
  rewrite alter_app_r_alt by lia.
  replace (length before - length before)%nat with 0%nat by lia.
  simpl. rewrite Hc.
  specialize (IH (before ++ [without names c])).
  rewrite length_app in IH. simpl in IH.
  replace (length before + 1)%nat with (S (length before)) in IH by lia.
  rewrite <- !app_assoc in IH. apply IH.
Qed.

(** The loop over the elements found destroys exactly the named elements. *)
Lemma decompose_matching e :
  foldl (λ e p, decompose_at p e) e (matching names e) = without names e.
Proof.
  induction e as [s|n cs IH|] using element_ind'; [done| |done].
  rewrite matching_Tag. simpl.
  destruct (bool_decide (n ∈ names)); simpl.
  - apply decompose_at_Decomposed.
  - rewrite decompose_at_Tag. f_equal.
    apply (decompose_siblings cs IH []).
Qed.

Lemma decompose_find_all doc :
  foldl (λ doc p, decompose p doc) doc (find_all names doc)
  = without names <$> doc.
Proof.
  apply (decompose_siblings doc) with (before := []).
  apply Forall_forall. intros c _. apply decompose_matching.
Qed.

(** Documents that agree outside the named elements are equal once these
    are destroyed. *)
Lemma without_same_outside e1 :
  ∀ e2, same_outside names e1 e2 → without names e1 = without names e2.
Proof.
  induction e1 as [s|n cs IH|] using element_ind'; intros e2 Hsame;
    inversion Hsame; subst; simpl; try done.
  - rewrite bool_decide_eq_true_2 by done. done.
  - rewrite bool_decide_eq_false_2 by done. f_equal.
    clear Hsame.
    match goal with
    | H : Forall2 _ cs _ |- _ =>
      revert IH; induction H as [|c1 c2 cs1 cs2 Hc Hcs IHcs]
    end; intros IH; simpl; [done|].
    inversion IH as [|? ? Hhead Htail]; subst.
    f_equal; [by apply Hhead | by apply IHcs].
Qed.

Lemma without_same_outside_soup (doc1 doc2 : soup) :
  Forall2 (same_outside names) doc1 doc2 →
  without names <$> doc1 = without names <$> doc2.
Proof.
  induction 1 as [|e1 e2 doc1 doc2 He Hdoc IH]; simpl; [done|].
  f_equal; [by apply without_same_outside | done].
Qed.

End DocumentFacts.

(** The page text written with [without]: what the loop of [page_text]
    computes, by recursion on the document. *)
Lemma page_text_without (doc : soup) :
  page_text doc
  = take 5000 (join [LF] (filter (λ chunk, chunk ≠ [])
      (line ← strip <$> splitlines (get_text (without [py "script"; py "style"] <$> doc));
       strip <$> split line (py "  ")))).
Proof. unfold page_text. by rewrite decompose_find_all. Qed.

(** The chunks kept by [page_text] are non-empty and hold no line boundary. *)
Lemma page_chunks_single_line (text : pystr) :
  Forall (λ chunk, chunk ≠ [] ∧ single_line chunk)
    (filter (λ chunk, chunk ≠ [])
       (line ← strip <$> splitlines text; strip <$> split line (py "  "))).
Proof.
  apply Forall_forall. intros chunk Hin.
  apply list_elem_of_filter in Hin as [Hne Hin]. split; [done|].
  apply list_elem_of_bind in Hin as (line & Hchunk & Hline).
  apply list_elem_of_fmap in Hline as (raw & -> & Hraw).
  apply list_elem_of_fmap in Hchunk as (phrase & -> & Hphrase).
  apply Forall_strip.
  pose proof (splitlines_lines_single text) as Hlines.
  rewrite Forall_forall in Hlines. specialize (Hlines raw Hraw).
  pose proof (Forall_split _ (strip raw) (py "  ") (Forall_strip _ _ Hlines)) as Hs.
  rewrite Forall_forall in Hs. by apply Hs.
Qed.

Lemma page_text_no_empty_line (doc : soup) :
  Forall (λ line, line ≠ []) (splitlines (page_text doc)).
Proof.
  unfold page_text. apply splitlines_take_join_nonempty, page_chunks_single_line.
Qed.

Lemma page_text_length (doc : soup) : (length (page_text doc) ≤ 5000)%nat.
Proof. unfold page_text. apply length_take_le_bound. Qed.

(** ** The tools never raise *)

Section ToolFacts.
Variable x : externals.
Variable tavily : TavilyClient.

Lemma error_text_intro (prefix : pystr) (e : exception) :
  error_text prefix e (prefix ++ SPACE :: exc_str e).
Proof.
  split; [by eexists|]. exists (prefix ++ [SPACE]), [].
  by rewrite app_nil_r, <- app_assoc.
Qed.

Lemma web_search_raised q e :
  search_raises x tavily q e →
  ending (web_search x tavily q) = Ok (py "Search failed: " ++ exc_str e).
Proof.
  unfold search_raises, search_request_of, web_search. intros H.
  by rewrite H.
Qed.

Lemma get_stock_info_raised t e :
  quote_raises x t e →
  ending (get_stock_info x t) = Ok (py "Stock fetch failed: " ++ exc_str e).
Proof.
  unfold get_stock_info. intros [H|(stock & H & Hinfo)]; rewrite H; [done|].
  simpl. by rewrite Hinfo.
Qed.

Lemma scrape_pricing_page_raised u e :
  page_raises x u e →
  ending (scrape_pricing_page x u) = Ok (py "Error scraping: " ++ exc_str e).
Proof.
  unfold page_raises, get_request_of, scrape_pricing_page.
  intros [H|(r & H & Hsoup)]; rewrite H; [done|].
  simpl. by rewrite Hsoup.
Qed.

(** Whatever the providers answer, each tool ends with a text. *)
Lemma web_search_returns q : ∃ out, ending (web_search x tavily q) = Ok out.
Proof.
  unfold web_search.
  destruct (tavily_search x tavily _) as [response|e]; simpl; [|by eexists].
  destruct (getitem response _) as [results|e]; simpl; [|by eexists].
  destruct (iterate results) as [objs|e]; simpl; [|by eexists].
  destruct (mapM _ objs) as [context|e]; simpl; [|by eexists].
  destruct (str_join _ context) as [out|e]; simpl; by eexists.
Qed.

Lemma get_stock_info_returns t : ∃ out, ending (get_stock_info x t) = Ok out.
Proof.
  unfold get_stock_info.
  destruct (yf_Ticker x t) as [stock|e]; simpl; [|by eexists].
  destruct (ticker_info x stock) as [info|e]; simpl; by eexists.
Qed.

Lemma scrape_pricing_page_returns u :
  ∃ out, ending (scrape_pricing_page x u) = Ok out.
Proof.
  unfold scrape_pricing_page.
  destruct (requests_get x _) as [r|e]; simpl; [|by eexists].
  destruct (BeautifulSoup x _ _) as [doc|e]; simpl; by eexists.
Qed.

Lemma ending_returns_text (r : Run pystr) (P : pystr → Prop) out :
  ending r = Ok out → P out → returns_text r P.
Proof. destruct r as [log res]. simpl. intros -> HP. by exists log, out. Qed.

End ToolFacts.

(** C1. When the provider behind a tool raises an exception, the tool
    returns (it does not raise) a text that begins with the tool's own
    prefix and contains the message of the exception: [Search failed:] for
    the search, [Stock fetch failed:] for the quote lookup, [Error
    scraping:] for the page extraction. *)
Theorem tool_failure_becomes_text (x : externals) (tavily : TavilyClient)
    (arg : pystr) (e : exception) :
  (search_raises x tavily arg e →
   returns_text (web_search x tavily arg) (error_text (py "Search failed:") e))
  ∧ (quote_raises x arg e →
     returns_text (get_stock_info x arg) (error_text (py "Stock fetch failed:") e))
  ∧ (page_raises x arg e →
     returns_text (scrape_pricing_page x arg) (error_text (py "Error scraping:") e)).
Proof.
  split; [|split]; intros H.
  - eapply ending_returns_text; [by apply web_search_raised|].
    apply (error_text_intro (py "Search failed:")).
  - eapply ending_returns_text; [by apply get_stock_info_raised|].
    apply (error_text_intro (py "Stock fetch failed:")).
  - eapply ending_returns_text; [by apply scrape_pricing_page_raised|].
    apply (error_text_intro (py "Error scraping:")).
Qed.

Lemma tool_failure_becomes_text_witness :
  search_raises failing {| tavily_api_key := None |} (py "NVDA") timed_out
  ∧ quote_raises failing (py "NVDA") timed_out
  ∧ page_raises failing (py "NVDA") timed_out
  ∧ returns_text (web_search failing {| tavily_api_key := None |} (py "NVDA"))
      (error_text (py "Search failed:") timed_out)
  ∧ returns_text (get_stock_info failing (py "NVDA"))
      (error_text (py "Stock fetch failed:") timed_out)
  ∧ returns_text (scrape_pricing_page failing (py "NVDA"))
      (error_text (py "Error scraping:") timed_out).
Proof.
  assert (search_raises failing {| tavily_api_key := None |} (py "NVDA") timed_out)
    as Hs by reflexivity.
  assert (quote_raises failing (py "NVDA") timed_out) as Hq by (left; reflexivity).
  assert (page_raises failing (py "NVDA") timed_out) as Hp by (left; reflexivity).
  destruct (tool_failure_becomes_text failing {| tavily_api_key := None |}
              (py "NVDA") timed_out) as (H1 & H2 & H3).
  repeat split; auto.
Defined.

(** ** The search tool on an answer of the provider *)

Lemma mapM_content (items : list pyobj) (contents : list pystr) :
  Forall2 has_content items contents →
  mapM (λ obj, getitem obj (py "content")) items
  = Returns ((λ c, Atom (PyStr c)) <$> contents).
Proof.
  induction 1 as [|item c items contents (fields & -> & Hc) Hrest IH]; [done|].
  simpl. rewrite Hc. simpl. by rewrite IH.
Qed.

Lemma str_items_strings (contents : list pystr) :
  ∀ i, str_items i ((λ c, Atom (PyStr c)) <$> contents) = Returns contents.
Proof.
  induction contents as [|c contents IH]; intros i; [done|].
  simpl. by rewrite IH.
Qed.

Lemma splitlines_blank_separated (contents : list pystr) :
  Forall (λ c, c ≠ [] ∧ single_line c) contents →
  splitlines (join [LF; LF] contents) = blank_separated contents.
Proof.
  induction 1 as [|c rest [Hne Hc] Hrest IH]; [done|].
  simpl. destruct rest as [|c' rest].
  - by apply splitlines_single_line.
  - remember (join [LF; LF] (c' :: rest)) as tail. simpl.
    rewrite splitlines_line_LF by done.
    change (LF :: tail) with ([] ++ LF :: tail).
    rewrite (splitlines_line_LF [] tail) by constructor.
    by rewrite IH.
Qed.

(** C8. On a successful answer of the search provider, the search tool
    returns the [content] texts of all result items, in the order of the
    answer, joined by [\n\n]: when each text is a non-empty single line, the
    lines of the result are these texts with one empty line between
    consecutive ones. *)
Theorem web_search_joins_contents (x : externals) (tavily : TavilyClient)
    (q : pystr) (answer : pyobj) (contents : list pystr) :
  tavily_search x tavily (search_request_of q) = Returns answer →
  search_answer answer contents →
  ending (web_search x tavily q) = Ok (join [LF; LF] contents)
  ∧ (Forall (λ c, c ≠ [] ∧ single_line c) contents →
     splitlines (join [LF; LF] contents) = blank_separated contents).
Proof.
  intros Hcall (entries & items & -> & Hresults & Hitems).
  split; [|apply splitlines_blank_separated].
  unfold search_request_of in Hcall. unfold web_search. rewrite Hcall.
  simpl. rewrite Hresults. simpl.
  rewrite (mapM_content _ _ Hitems). simpl.
  unfold str_join. by rewrite str_items_strings.
Qed.

Lemma web_search_joins_contents_witness :
  ending (web_search answering {| tavily_api_key := None |} (py "Nvidia news"))
  = Ok (join [LF; LF] [py "Nvidia ships a new GPU."; py "Shares rise."])
  ∧ (Forall (λ c, c ≠ [] ∧ single_line c)
       [py "Nvidia ships a new GPU."; py "Shares rise."] →
     splitlines (join [LF; LF] [py "Nvidia ships a new GPU."; py "Shares rise."])
     = blank_separated [py "Nvidia ships a new GPU."; py "Shares rise."]).
Proof.
  apply (web_search_joins_contents answering {| tavily_api_key := None |}
           (py "Nvidia news") sample_search).
  - reflexivity.
  - eexists _, _. split; [reflexivity|]. split; [reflexivity|].
    repeat constructor; eexists; (split; [reflexivity|]); reflexivity.
Defined.

(** C9. When the search provider answers with an empty list of result
    items, the search tool returns the empty string, which is not an
    error text, and that is what the tool registered with the agent
    yields. *)
Theorem web_search_no_results (x : externals) (tavily : TavilyClient)
    (q : pystr) (entries : list (pystr * pyobj)) :
  tavily_search x tavily (search_request_of q) = Returns (PyDict entries) →
  entry (py "results") entries = Some (PyList []) →
  ending (web_search x tavily q) = Ok []
  ∧ ¬ (py "Search failed:" `prefix_of` [])
  ∧ ∃ tool, tool ∈ stratagem_tools x tavily
            ∧ tool_name tool = "web_search"%string
            ∧ ending (tool_fn tool q) = Ok [].
Proof.
  intros Hcall Hresults.
  assert (ending (web_search x tavily q) = Ok []) as Hout.
  { unfold search_request_of in Hcall. unfold web_search. rewrite Hcall.
    simpl. by rewrite Hresults. }
  split; [done|]. split.
  - intros [k Hk]. discriminate Hk.
  - eexists. split; [apply list_elem_of_here|]. by split.
Qed.

Lemma web_search_no_results_witness :
  ending (web_search (searching answering (PyDict empty_search))
            {| tavily_api_key := None |} (py "zzz"))
  = Ok [].
Proof.
  refine (proj1 (web_search_no_results
                   (searching answering (PyDict empty_search))
                   {| tavily_api_key := None |} (py "zzz") empty_search _ _));
    reflexivity.
Defined.

(** ** The quote lookup on an answer of the provider *)

Lemma str_info_get (info : gmap pystr scalar) (key : pystr) :
  str_scalar (info_get info key) = field_text info key.
Proof. unfold info_get, field_text. by destruct (info !! key). Qed.

Lemma single_line_literal (s : pystr) : single_lineb s = true → single_line s.
Proof. apply single_lineb_true. Qed.

Lemma single_line_app (s1 s2 : pystr) :
  single_line s1 → single_line s2 → single_line (s1 ++ s2).
Proof. intros H1 H2. by apply Forall_app. Qed.

Lemma field_text_single_line (info : gmap pystr scalar) (key : pystr) :
  one_line_fields info → key ∈ FIELDS → single_line (field_text info key).
Proof.
  intros Hinfo Hkey. unfold field_text.
  destruct (info !! key) as [v|] eqn:Hv; [by eapply Hinfo|].
  by apply single_line_literal.
Qed.

Lemma quote_text_lines (info : gmap pystr scalar) :
  one_line_fields info →
  splitlines (quote_text info)
  = [ [];
      INDENT ++ py "Current Price: $" ++ field_text info (py "currentPrice");
      INDENT ++ py "Market Cap: $" ++ field_text info (py "marketCap");
      INDENT ++ py "52 Week High: $" ++ field_text info (py "fiftyTwoWeekHigh");
      INDENT ++ py "Recommendation: " ++ field_text info (py "recommendationKey");
      INDENT ].
Proof.
  intros Hinfo. unfold quote_text. rewrite !str_info_get.
  assert (∀ a b c rest : pystr,
            a ++ b ++ c ++ [LF] ++ rest = (a ++ b ++ c) ++ LF :: rest) as Hline.
  { intros. by rewrite <- !app_assoc. }
  assert (∀ label key, single_lineb label = true → key ∈ FIELDS →
            single_line (INDENT ++ label ++ field_text info key)) as Hsingle.
  { intros label key Hlabel Hkey.
    repeat apply single_line_app;
      [by apply single_line_literal | by apply single_line_literal
      | by apply field_text_single_line]. }
  change ([LF] ++ ?rest) with ([] ++ LF :: rest).
  rewrite splitlines_line_LF by constructor.
  do 4 (rewrite Hline, splitlines_line_LF
          by (apply Hsingle; [reflexivity | unfold FIELDS; set_solver])).
  rewrite splitlines_single_line; [done | by apply single_line_literal | done].
Qed.

(** C3 (as amended). On an answer of the market-data provider whose four
    fields print on one line where present, the text of the quote lookup is
    an empty first line, then exactly four field lines in the order price,
    market cap, 52-week high, recommendation, each indented by eight spaces,
    then a last line of eight spaces: six lines, four of them with a field;
    a field absent from the answer is rendered as [N/A]. *)
Theorem get_stock_info_lines (x : externals) (t : pystr) (stock : Ticker)
    (info : gmap pystr scalar) :
  yf_Ticker x t = Returns stock →
  ticker_info x stock = Returns info →
  one_line_fields info →
  ∃ out,
    ending (get_stock_info x t) = Ok out
    ∧ splitlines out
      = [ [];
          INDENT ++ py "Current Price: $" ++ field_text info (py "currentPrice");
          INDENT ++ py "Market Cap: $" ++ field_text info (py "marketCap");
          INDENT ++ py "52 Week High: $" ++ field_text info (py "fiftyTwoWeekHigh");
          INDENT ++ py "Recommendation: " ++ field_text info (py "recommendationKey");
          INDENT ]
    ∧ ∀ key, info !! key = None → field_text info key = py "N/A".
Proof.
  intros Hticker Hinfo Hone. exists (quote_text info). split; [|split].
  - unfold get_stock_info. rewrite Hticker. simpl. by rewrite Hinfo.
  - by apply quote_text_lines.
  - intros key Hkey. unfold field_text. by rewrite Hkey.
Qed.

Lemma sample_info_one_line : one_line_fields sample_info.
Proof.
  intros key v Hkey Hv. apply single_line_literal.
  unfold FIELDS in Hkey. rewrite !elem_of_cons, elem_of_nil in Hkey.
  destruct Hkey as [->|[->|[->|[->|[]]]]];
    vm_compute in Hv; try discriminate Hv;
    injection Hv as <-; reflexivity.
Qed.

Lemma get_stock_info_lines_witness :
  ∃ out,
    ending (get_stock_info answering (py "NVDA")) = Ok out
    ∧ splitlines out
      = [ [];
          INDENT ++ py "Current Price: $" ++ field_text sample_info (py "currentPrice");
          INDENT ++ py "Market Cap: $" ++ field_text sample_info (py "marketCap");
          INDENT ++ py "52 Week High: $" ++ field_text sample_info (py "fiftyTwoWeekHigh");
          INDENT ++ py "Recommendation: " ++ field_text sample_info (py "recommendationKey");
          INDENT ]
    ∧ ∀ key, sample_info !! key = None → field_text sample_info key = py "N/A".
Proof.
  apply (get_stock_info_lines answering (py "NVDA") {| symbol := py "NVDA" |}
           sample_info); [reflexivity | reflexivity | apply sample_info_one_line].
Defined.

(** C3 (as stated) fails: on the sample answer the text has six lines, the
    first one empty and the last one made of spaces, not four. *)
Lemma get_stock_info_not_four_lines :
  ending (get_stock_info answering (py "NVDA")) = Ok sample_quote
  ∧ length (splitlines sample_quote) = 6%nat
  ∧ length (splitlines sample_quote) ≠ 4%nat.
Proof. split; [|split]; [vm_compute; reflexivity | reflexivity | discriminate]. Qed.

(** ** The page extraction on a fetched page *)

Lemma element_text_without (names : list pystr) (e : element) :
  element_text (without names e) = text_outside names e.
Proof.
  induction e as [s|n cs IH|] using element_ind'; [done| |done].
  simpl. destruct (bool_decide (n ∈ names)); [done|]. simpl. f_equal.
  induction IH as [|c cs Hc Hcs IHcs]; [done|].
  simpl. f_equal; [exact Hc | exact IHcs].
Qed.

(** After the loop, [get_text] yields the text outside script and style
    elements. *)
Lemma get_text_decomposed (doc : soup) :
  get_text (foldl (λ doc script, decompose script doc) doc (find_all HIDDEN doc))
  = concat (text_outside HIDDEN <$> doc).
Proof.
  rewrite decompose_find_all. unfold get_text. f_equal.
  induction doc as [|e doc IH]; [done|].
  simpl. f_equal; [apply element_text_without | exact IH].
Qed.

(** Pages that differ only inside script and style elements give the same
    text. *)
Lemma page_text_same_outside (doc doc' : soup) :
  Forall2 (same_outside HIDDEN) doc doc' → page_text doc' = page_text doc.
Proof.
  unfold HIDDEN. intros Hsame. rewrite !page_text_without.
  by rewrite (without_same_outside_soup _ _ _ Hsame).
Qed.

(** The page was fetched and parsed: the tool returns its cleaned text. *)
Lemma scrape_pricing_page_fetched (x : externals) (u : pystr)
    (r : http_response) (doc : soup) :
  requests_get x (get_request_of u) = Returns r →
  BeautifulSoup x (content r) (py "html.parser") = Returns doc →
  ending (scrape_pricing_page x u) = Ok (page_text doc).
Proof.
  unfold get_request_of, scrape_pricing_page. intros Hget Hsoup.
  rewrite Hget. simpl. by rewrite Hsoup.
Qed.

(** C4 (as amended). When the page is fetched and parsed without an
    exception, the text the page extraction returns has at most 5000
    characters, whatever the size of the page. *)
Theorem scrape_pricing_page_length (x : externals) (u : pystr)
    (r : http_response) (doc : soup) :
  requests_get x (get_request_of u) = Returns r →
  BeautifulSoup x (content r) (py "html.parser") = Returns doc →
  ∃ out, ending (scrape_pricing_page x u) = Ok out ∧ (length out ≤ 5000)%nat.
Proof.
  intros Hget Hsoup. exists (page_text doc).
  split; [by eapply scrape_pricing_page_fetched | apply page_text_length].
Qed.

Lemma scrape_pricing_page_length_witness :
  ∃ out, ending (scrape_pricing_page answering (py "https://example.com/pricing"))
         = Ok out
         ∧ (length out ≤ 5000)%nat.
Proof.
  apply (scrape_pricing_page_length answering (py "https://example.com/pricing")
           {| status_code := 404; content := [] |} sample_page); reflexivity.
Defined.

(** C4 (as stated) fails: when the fetch raises, the text returned is the
    prefix and the whole message, which is not cut; for an address of 5000
    characters it has 10079 characters. *)
Lemma scrape_pricing_page_long_error :
  ending (scrape_pricing_page refusing long_address)
  = Ok (py "Error scraping: " ++ exc_str (missing_schema long_address))
  ∧ N.of_nat (length (py "Error scraping: "
                      ++ exc_str (missing_schema long_address))) = 10079
  ∧ ¬ (length (py "Error scraping: " ++ exc_str (missing_schema long_address))
       ≤ 5000)%nat.
Proof.
  assert (N.of_nat (length (py "Error scraping: "
                            ++ exc_str (missing_schema long_address))) = 10079)
    as Hlen by (vm_compute; reflexivity).
  split; [reflexivity|]. split; [done|]. lia.
Qed.

(** C6. For every page that was fetched and parsed, including pages with
    script or style elements, the text the page extraction returns has no
    empty line, and nothing in it comes from inside a script or style
    element: any page that is the same outside these elements gives the
    same text. *)
Theorem scrape_pricing_page_clean (x : externals) (u : pystr)
    (r : http_response) (doc : soup) :
  requests_get x (get_request_of u) = Returns r →
  BeautifulSoup x (content r) (py "html.parser") = Returns doc →
  ∃ out,
    ending (scrape_pricing_page x u) = Ok out
    ∧ Forall (λ line, line ≠ []) (splitlines out)
    ∧ ∀ doc', Forall2 (same_outside HIDDEN) doc doc' → page_text doc' = out.
Proof.
  intros Hget Hsoup. exists (page_text doc). split; [|split].
  - by eapply scrape_pricing_page_fetched.
  - apply page_text_no_empty_line.
  - apply page_text_same_outside.
Qed.

Lemma scrape_pricing_page_clean_witness :
  ∃ out,
    ending (scrape_pricing_page answering (py "https://example.com/pricing"))
    = Ok out
    ∧ Forall (λ line, line ≠ []) (splitlines out)
    ∧ ∀ doc', Forall2 (same_outside HIDDEN) sample_page doc' → page_text doc' = out.
Proof.
  apply (scrape_pricing_page_clean answering (py "https://example.com/pricing")
           {| status_code := 404; content := [] |} sample_page); reflexivity.
Defined.

(** C10. The page extraction does not look at the status of the response:
    for every response received whose body parses, whatever its status, it
    returns the cleaned, truncated text of the body as its result, with
    nothing put before it; and the same body under any other status gives
    the same run. *)
Theorem scrape_pricing_page_ignores_status (x : externals) (u : pystr)
    (status : Z) (body : list Byte.byte) (doc : soup) :
  BeautifulSoup x body (py "html.parser") = Returns doc →
  ending (scrape_pricing_page
            (fetching x {| status_code := status; content := body |}) u)
  = Ok (page_text doc)
  ∧ ∀ status',
      scrape_pricing_page
        (fetching x {| status_code := status'; content := body |}) u
      = scrape_pricing_page
          (fetching x {| status_code := status; content := body |}) u.
Proof.
  intros Hsoup. split.
  - by eapply scrape_pricing_page_fetched.
  - intros status'. reflexivity.
Qed.

Lemma scrape_pricing_page_ignores_status_witness :
  ending (scrape_pricing_page
            (fetching answering {| status_code := 503; content := [] |})
            (py "https://example.com/pricing"))
  = Ok (page_text sample_page).
Proof.
  refine (proj1 (scrape_pricing_page_ignores_status answering _ 503 [] sample_page _)).
  reflexivity.
Defined.

(** ** One run of the script *)

Lemma filter_app_events kind (log1 log2 : list event) :
  List.filter kind (log1 ++ log2) = List.filter kind log1 ++ List.filter kind log2.
Proof. apply List.filter_app. Qed.

Lemma filter_nil_not_in (kind : event → bool) (log : list event) (ev : event) :
  List.filter kind log = [] → kind ev = true → ev ∉ log.
Proof.
  intros Hnil Hkind Hin. apply list_elem_of_In in Hin.
  assert (List.In ev (List.filter kind log)) as Hf by (by apply List.filter_In).
  rewrite Hnil in Hf. destruct Hf.
Qed.

(** Case analysis on the next answer a run depends on. *)
Ltac provider_cases :=
  match goal with
  | |- context [call ?o] => destruct o as [?|?] eqn:?
  | |- context [match ?o with Returns _ => _ | Raises _ => _ end] =>
    destruct o as [?|?] eqn:?
  | |- context [if ?b then _ else _] => destruct b eqn:?
  end.

Section ScriptFacts.
Variable x : externals.
Variable s : session.

(** The key set-up shows nothing but, at most, the error box, and builds
    nothing but the two clients. *)
Lemma setup_api_keys_events (kind : event → bool) :
  (∀ call text, kind (St call text) = false) →
  (∀ m k, kind (NewOpenAI m k) = false) →
  (∀ k, kind (NewTavilyClient k) = false) →
  List.filter kind (events (setup_api_keys x s)) = [].
Proof.
  intros Hst Hllm Htavily. unfold setup_api_keys, events.
  destruct (negb (truthy (environ s !! py "OPENAI_API_KEY")));
    repeat (simpl; rewrite ?Hst, ?Hllm, ?Htavily; try done; provider_cases).
Qed.

(** Once the set-up has returned the two clients, the run goes on with the
    inputs and the agent logic. *)
Lemma script_after_setup log0 llm tavily :
  setup_api_keys x s = (log0, Ok (llm, tavily)) →
  events (script x s)
  = [St "set_page_config" (py "Stratagem AI"); St "markdown" custom_css]
    ++ log0 ++ events (build_ui s)
    ++ events (main_agent_logic x llm tavily (target_asset s) (objective s)
                 (start_pressed s))
  ∧ ending (script x s)
    = ending (main_agent_logic x llm tavily (target_asset s) (objective s)
                (start_pressed s)).
Proof.
  intros Hsetup. unfold script. rewrite Hsetup. cbn.
  destruct (main_agent_logic x llm tavily _ _ _) as [logm r].
  split; reflexivity.
Qed.

Lemma main_without_target llm tavily goal :
  main_agent_logic x llm tavily [] goal true
  = ([St "warning" TARGET_REQUIRED], Ok tt).
Proof. reflexivity. Qed.

(** With a target, the agent is built and asked once; what follows
    depends on the answer. *)
Lemma main_with_target llm tavily c target goal :
  main_agent_logic x llm tavily (c :: target) goal true
  = ([St "divider" [];
      St "status" ([0x26A1] ++ py " **Stratagem Active:** Analyzing "
                   ++ (c :: target) ++ py "...");
      St "columns" [];
      St "write" ([0x2699; 0xFE0F] ++ py " **Initializing Agents...**");
      NewFunctionTool "web_search";
      NewFunctionTool "get_stock_info";
      NewFunctionTool "scrape_pricing_page";
      NewAgent (agent_system_prompt (c :: target) goal);
      AgentChat (agent_message (c :: target) goal)]
     ++ match agent_chat x (stratagem_agent x llm tavily (c :: target) goal)
                (agent_message (c :: target) goal) with
        | Returns report =>
          [St "status.update" ([0x2705] ++ py " Analysis Complete");
           St "markdown" (report_card x (c :: target) goal);
           St "markdown" (py "---");
           St "markdown" (response_text report);
           St "markdown" (py "---");
           DownloadButton ([0x1F4E5] ++ py " Export Dossier (Markdown)")
                          (response_text report)
                          (report_filename (c :: target))
                          (py "text/markdown")]
        | Raises _ => []
        end,
     match agent_chat x (stratagem_agent x llm tavily (c :: target) goal)
             (agent_message (c :: target) goal) with
     | Returns _ => Ok tt
     | Raises e => Error e
     end).
Proof.
  unfold main_agent_logic. cbn.
  destruct (agent_chat x _ _) as [report|e]; reflexivity.
Qed.

End ScriptFacts.

Section RunFacts.
Variable x : externals.
Variable s : session.
Variables (log0 : list event) (llm : OpenAI) (tavily : TavilyClient).
Hypothesis Hsetup : setup_api_keys x s = (log0, Ok (llm, tavily)).

Lemma setup_log_filter (kind : event → bool) :
  (∀ call text, kind (St call text) = false) →
  (∀ m k, kind (NewOpenAI m k) = false) →
  (∀ k, kind (NewTavilyClient k) = false) →
  List.filter kind log0 = [].
Proof.
  intros Hst Hllm Htavily.
  pose proof (setup_api_keys_events x s kind Hst Hllm Htavily) as H.
  by rewrite Hsetup in H.
Qed.

(** The events of one kind in a run whose set-up returned: those of the
    inputs and those of the agent logic. *)
Lemma script_filter (kind : event → bool) :
  (∀ call text, kind (St call text) = false) →
  (∀ m k, kind (NewOpenAI m k) = false) →
  (∀ k, kind (NewTavilyClient k) = false) →
  List.filter kind (events (script x s))
  = List.filter kind (events (build_ui s))
    ++ List.filter kind
         (events (main_agent_logic x llm tavily (target_asset s) (objective s)
                    (start_pressed s))).
Proof.
  intros Hst Hllm Htavily.
  destruct (script_after_setup x s log0 llm tavily Hsetup) as [-> _].
  rewrite !filter_app_events, setup_log_filter by done.
  simpl. by rewrite !Hst.
Qed.

Lemma script_main_event (ev : event) :
  ev ∈ events (main_agent_logic x llm tavily (target_asset s) (objective s)
                 (start_pressed s)) →
  ev ∈ events (script x s).
Proof.
  intros Hin.
  destruct (script_after_setup x s log0 llm tavily Hsetup) as [-> _].
  rewrite !elem_of_app. auto.
Qed.

End RunFacts.

(** C5. In a run that reached the inputs (the key set-up returned the two
    clients) and in which the button was pressed: with an empty target name
    the agent is neither built nor asked and the fixed warning is shown;
    with a non-empty target name the agent is built and asked exactly
    once. *)
Theorem agent_asked_iff_target (x : externals) (s : session)
    (log0 : list event) (llm : OpenAI) (tavily : TavilyClient) :
  setup_api_keys x s = (log0, Ok (llm, tavily)) →
  start_pressed s = true →
  (target_asset s = [] →
   count is_agent_chat (events (script x s)) = 0%nat
   ∧ count is_new_agent (events (script x s)) = 0%nat
   ∧ St "warning" TARGET_REQUIRED ∈ events (script x s))
  ∧ (target_asset s ≠ [] →
     count is_agent_chat (events (script x s)) = 1%nat
     ∧ count is_new_agent (events (script x s)) = 1%nat
     ∧ AgentChat (agent_message (target_asset s) (objective s))
       ∈ events (script x s)).
Proof.
  intros Hsetup Hpressed. split.
  - intros Htarget. unfold count.
    rewrite !(script_filter x s log0 llm tavily Hsetup) by done.
    split; [|split].
    + by rewrite Hpressed, Htarget.
    + by rewrite Hpressed, Htarget.
    + apply (script_main_event x s log0 llm tavily Hsetup).
      rewrite Hpressed, Htarget, main_without_target. apply list_elem_of_here.
  - intros Htarget. destruct (target_asset s) as [|c target] eqn:Ht; [done|].
    split; [|split].
    + unfold count.
      rewrite (script_filter x s log0 llm tavily Hsetup) by done.
      rewrite Hpressed, Ht, main_with_target.
      destruct (agent_chat x _ _); reflexivity.
    + unfold count.
      rewrite (script_filter x s log0 llm tavily Hsetup) by done.
      rewrite Hpressed, Ht, main_with_target.
      destruct (agent_chat x _ _); reflexivity.
    + apply (script_main_event x s log0 llm tavily Hsetup).
      rewrite Hpressed, Ht, main_with_target. unfold events. cbn.
      do 8 apply list_elem_of_further. apply list_elem_of_here.
Qed.

Lemma agent_asked_iff_target_witness :
  (count is_agent_chat (events (script answering (session_with [] true))) = 0%nat
   ∧ count is_new_agent (events (script answering (session_with [] true))) = 0%nat
   ∧ St "warning" TARGET_REQUIRED
     ∈ events (script answering (session_with [] true)))
  ∧ count is_agent_chat
      (events (script answering (session_with (py "Nvidia") true))) = 1%nat.
Proof.
  split.
  - refine (proj1 (agent_asked_iff_target answering (session_with [] true)
                     _ _ _ _ _) _); reflexivity.
  - refine (proj1 (proj2 (agent_asked_iff_target answering
                            (session_with (py "Nvidia") true) _ _ _ _ _) _));
      [reflexivity | reflexivity | discriminate].
Defined.

(** C7. On a successful run (the set-up returned, the button was pressed
    with a target name [t], the agent answered with a report) the script
    ends normally, shows the report, and offers exactly one export whose
    payload is the report text itself and whose file name is [Stratagem_]
    followed by [t] and [_Report.md]. *)
Theorem export_is_the_report (x : externals) (s : session)
    (log0 : list event) (llm : OpenAI) (tavily : TavilyClient)
    (report : AgentChatResponse) :
  setup_api_keys x s = (log0, Ok (llm, tavily)) →
  start_pressed s = true →
  target_asset s ≠ [] →
  agent_chat x (stratagem_agent x llm tavily (target_asset s) (objective s))
    (agent_message (target_asset s) (objective s)) = Returns report →
  ending (script x s) = Ok tt
  ∧ List.filter is_download (events (script x s))
    = [DownloadButton ([0x1F4E5] ++ py " Export Dossier (Markdown)")
                      (response_text report)
                      (py "Stratagem_" ++ target_asset s ++ py "_Report.md")
                      (py "text/markdown")]
  ∧ St "markdown" (response_text report) ∈ events (script x s).
Proof.
  intros Hsetup Hpressed Htarget Hchat.
  destruct (target_asset s) as [|c target] eqn:Ht; [done|].
  split; [|split].
  - destruct (script_after_setup x s log0 llm tavily Hsetup) as [_ ->].
    by rewrite Hpressed, Ht, main_with_target, Hchat.
  - rewrite (script_filter x s log0 llm tavily Hsetup) by done.
    by rewrite Hpressed, Ht, main_with_target, Hchat.
  - apply (script_main_event x s log0 llm tavily Hsetup).
    rewrite Hpressed, Ht, main_with_target, Hchat. unfold events. cbn.
    do 12 apply list_elem_of_further. apply list_elem_of_here.
Qed.

Lemma export_is_the_report_witness :
  ending (script answering (session_with (py "Nvidia") true)) = Ok tt
  ∧ List.filter is_download
      (events (script answering (session_with (py "Nvidia") true)))
    = [DownloadButton ([0x1F4E5] ++ py " Export Dossier (Markdown)")
                      (py "## Strategic Verdict")
                      (py "Stratagem_" ++ py "Nvidia" ++ py "_Report.md")
                      (py "text/markdown")]
  ∧ St "markdown" (py "## Strategic Verdict")
    ∈ events (script answering (session_with (py "Nvidia") true)).
Proof.
  refine (export_is_the_report answering (session_with (py "Nvidia") true)
            _ _ _ {| response_text := py "## Strategic Verdict" |} _ _ _ _);
    [reflexivity | reflexivity | discriminate | reflexivity].
Defined.

(** ** The key check at start-up *)

(** Scenario C: the model key is neither in the environment nor in the
    secrets; the run shows the error box and stops before any input. *)
Lemma script_stops_without_model_key (x : externals) (s : session) :
  truthy (environ s !! py "OPENAI_API_KEY") = false →
  secrets_contains s (py "OPENAI_API_KEY") = Returns false →
  script x s
  = ([St "set_page_config" (py "Stratagem AI"); St "markdown" custom_css;
      St "error" MISSING_KEYS], Stopped).
Proof.
  intros Hkey Hsecrets. unfold script, setup_api_keys.
  by rewrite Hkey, Hsecrets.
Qed.

(** With a model key in the environment the script never shows the error
    box and never stops, whatever else is missing. *)
Lemma script_with_model_key (x : externals) (s : session) :
  truthy (environ s !! py "OPENAI_API_KEY") = true →
  List.filter (is_call "error") (events (script x s)) = []
  ∧ ending (script x s) ≠ Stopped.
Proof.
  intros Hkey. unfold script, setup_api_keys, main_agent_logic, events, ending.
  rewrite Hkey. cbn.
  repeat (provider_cases; cbn); done.
Qed.


(** ** Further properties of the script *)

(** The log of a set-up that returned: the two constructions. *)
Lemma setup_api_keys_returned (x : externals) (s : session)
    (log : list event) (llm : OpenAI) (tavily : TavilyClient) :
  setup_api_keys x s = (log, Ok (llm, tavily)) →
  model llm = py "gpt-4o-mini"
  ∧ log = [NewOpenAI (py "gpt-4o-mini") (api_key llm);
           NewTavilyClient (tavily_api_key tavily)]
  ∧ ((truthy (environ s !! py "OPENAI_API_KEY") = true
      ∧ api_key llm = environ s !! py "OPENAI_API_KEY"
      ∧ tavily_api_key tavily = environ s !! py "TAVILY_API_KEY")
     ∨ (truthy (environ s !! py "OPENAI_API_KEY") = false
        ∧ secrets_contains s (py "OPENAI_API_KEY") = Returns true
        ∧ ∃ k1 k2,
            secrets_getitem s (py "OPENAI_API_KEY") = Returns k1
            ∧ secrets_getitem s (py "TAVILY_API_KEY") = Returns k2
            ∧ api_key llm = Some k1
            ∧ tavily_api_key tavily = Some k2)).
Proof.
  unfold setup_api_keys.
  destruct (truthy (environ s !! py "OPENAI_API_KEY")) eqn:Hkey; cbn.
  - repeat (provider_cases; cbn); intros H; try discriminate H.
    injection H as <- <- <-. cbn. split; [done|]. split; [done|]. by left.
  - destruct (secrets_contains s _) as [[|]|e] eqn:Hfound; cbn;
      [|intros H; discriminate H..].
    destruct (secrets_getitem s (py "OPENAI_API_KEY")) as [k1|e] eqn:Hk1; cbn;
      [|intros H; discriminate H].
    destruct (secrets_getitem s (py "TAVILY_API_KEY")) as [k2|e] eqn:Hk2; cbn;
      [|intros H; discriminate H].
    repeat (provider_cases; cbn); intros H; try discriminate H.
    injection H as <- <- <-. cbn. split; [done|]. split; [done|].
    right. split; [done|]. split; [done|]. by exists k1, k2.
Qed.

(** X2. Key resolution. When the set-up returns, the model client carries
    the model key of the environment if that is non-empty, and the search
    client the search key of the environment, absent or not; otherwise both
    clients carry the keys read from the secrets, whatever search key the
    environment holds. *)
Theorem key_resolution (x : externals) (s : session)
    (log : list event) (llm : OpenAI) (tavily : TavilyClient) :
  setup_api_keys x s = (log, Ok (llm, tavily)) →
  (truthy (environ s !! py "OPENAI_API_KEY") = true →
   api_key llm = environ s !! py "OPENAI_API_KEY"
   ∧ tavily_api_key tavily = environ s !! py "TAVILY_API_KEY")
  ∧ (truthy (environ s !! py "OPENAI_API_KEY") = false →
     ∃ k1 k2,
       secrets_getitem s (py "OPENAI_API_KEY") = Returns k1
       ∧ secrets_getitem s (py "TAVILY_API_KEY") = Returns k2
       ∧ api_key llm = Some k1
       ∧ tavily_api_key tavily = Some k2).
Proof.
  intros Hsetup.
  destruct (setup_api_keys_returned x s log llm tavily Hsetup)
    as (_ & _ & [(Hkey & Hllm & Htavily)|(Hkey & _ & Hsecrets)]).
  - split; [done|]. intros Hno. rewrite Hkey in Hno. discriminate Hno.
  - split; [|done]. intros Hyes. rewrite Hkey in Hyes. discriminate Hyes.
Qed.

Lemma key_resolution_witness :
  ∃ log llm tavily,
    setup_api_keys answering (session_in_secrets (py "Nvidia") true)
    = (log, Ok (llm, tavily))
    ∧ api_key llm = Some (py "secret-OPENAI_API_KEY")
    ∧ tavily_api_key tavily = Some (py "secret-TAVILY_API_KEY").
Proof.
  eexists _, _, _. split; [reflexivity|].
  destruct (key_resolution answering (session_in_secrets (py "Nvidia") true)
              _ _ _ eq_refl) as [_ Hsecrets].
  destruct Hsecrets as (k1 & k2 & Hk1 & Hk2 & Hllm & Htavily); [reflexivity|].
  injection Hk1 as <-. injection Hk2 as <-. by split.
Defined.

(** Without a model key in the environment, and unless the secrets answer
    that they hold none, the script shows no error box and does not stop. *)
Lemma script_with_secrets (x : externals) (s : session) :
  truthy (environ s !! py "OPENAI_API_KEY") = false →
  secrets_contains s (py "OPENAI_API_KEY") ≠ Returns false →
  List.filter (is_call "error") (events (script x s)) = []
  ∧ ending (script x s) ≠ Stopped.
Proof.
  intros Hkey Hfound.
  unfold script, setup_api_keys, main_agent_logic, events, ending.
  rewrite Hkey. cbn.
  destruct (secrets_contains s _) as [[|]|e]; [|done|]; cbn; [|done].
  repeat (provider_cases; cbn); done.
Qed.

(** X1. The script shows the missing-keys error box exactly when the model
    key is missing (absent or empty in the environment, and not in the
    secrets), and these are exactly the runs that end in [st.stop()]. *)
Theorem missing_keys_error_iff (x : externals) (s : session) :
  (St "error" MISSING_KEYS ∈ events (script x s) ↔ model_key_missing s)
  ∧ (ending (script x s) = Stopped ↔ model_key_missing s).
Proof.
  assert (model_key_missing s →
          (St "error" MISSING_KEYS ∈ events (script x s))
          ∧ ending (script x s) = Stopped) as Hmissing.
  { intros [Hkey Hfound].
    rewrite (script_stops_without_model_key x s Hkey Hfound).
    split; [|done]. unfold events. cbn.
    do 2 apply list_elem_of_further. apply list_elem_of_here. }
  assert (¬ model_key_missing s →
          (St "error" MISSING_KEYS ∉ events (script x s))
          ∧ ending (script x s) ≠ Stopped) as Hpresent.
  { intros Hnot.
    destruct (truthy (environ s !! py "OPENAI_API_KEY")) eqn:Hkey.
    - destruct (script_with_model_key x s Hkey) as [Hfilter Hend].
      split; [by eapply filter_nil_not_in | done].
    - destruct (script_with_secrets x s Hkey) as [Hfilter Hend].
      { intros Hfound. apply Hnot. by split. }
      split; [by eapply filter_nil_not_in | done]. }
  assert (Decision (model_key_missing s)) as [Hyes|Hno].
  { unfold model_key_missing.
    destruct (truthy (environ s !! py "OPENAI_API_KEY"));
      [right; by intros [? _]|].
    destruct (secrets_contains s _) as [[|]|e];
      [right; by intros [_ ?] | left; done | right; by intros [_ ?]]. }
  - destruct (Hmissing Hyes). split; split; done.
  - destruct (Hpresent Hno). split; split; done.
Qed.

(** X3. When the key set-up does not return the two clients (it stopped, or
    a secret or a client constructor raised), the script ends the same way
    right there: no input is rendered and no agent is built. *)
Theorem setup_failure_ends_run (x : externals) (s : session) :
  (∀ clients, ending (setup_api_keys x s) ≠ Ok clients) →
  events (script x s)
  = [St "set_page_config" (py "Stratagem AI"); St "markdown" custom_css]
    ++ events (setup_api_keys x s)
  ∧ List.filter is_input (events (script x s)) = []
  ∧ List.filter is_new_agent (events (script x s)) = []
  ∧ match ending (setup_api_keys x s) with
    | Error e => ending (script x s) = Error e
    | _ => ending (script x s) = Stopped
    end.
Proof.
  intros Hfail.
  pose proof (setup_api_keys_events x s is_input) as Hinput.
  pose proof (setup_api_keys_events x s is_new_agent) as Hagent.
  assert (events (script x s)
          = [St "set_page_config" (py "Stratagem AI"); St "markdown" custom_css]
            ++ events (setup_api_keys x s)
          ∧ match ending (setup_api_keys x s) with
            | Error e => ending (script x s) = Error e
            | _ => ending (script x s) = Stopped
            end) as [Hevents Hend].
  { unfold script.
    destruct (setup_api_keys x s) as [log0 [clients|e|]] eqn:Hsetup.
    - by destruct (Hfail clients).
    - done.
    - done. }
  split; [done|]. rewrite Hevents, !filter_app_events.
  rewrite Hinput, Hagent by done. done.
Qed.

Lemma setup_failure_ends_run_witness :
  List.filter is_input
    (events (script answering (session_without_keys (py "Nvidia") true))) = []
  ∧ ending (script failing (session_with (py "Nvidia") true)) = Error timed_out.
Proof.
  split.
  - refine (proj1 (proj2 (setup_failure_ends_run answering
                            (session_without_keys (py "Nvidia") true) _))).
    intros clients. discriminate.
  - refine (proj2 (proj2 (proj2 (setup_failure_ends_run failing
                                   (session_with (py "Nvidia") true) _)))).
    intros clients. discriminate.
Defined.



(** X5. When the button was not pressed, the run shows the page and the
    three inputs and nothing else: no agent, no warning, no export; it ends
    normally whatever the target field holds. *)
Theorem idle_run (x : externals) (s : session)
    (log0 : list event) (llm : OpenAI) (tavily : TavilyClient) :
  setup_api_keys x s = (log0, Ok (llm, tavily)) →
  start_pressed s = false →
  script x s
  = ([St "set_page_config" (py "Stratagem AI"); St "markdown" custom_css]
     ++ log0 ++ events (build_ui s), Ok tt)
  ∧ List.filter is_input (events (script x s))
    = [Input "text_input" ([0x1F3AF] ++ py " Target Asset");
       Input "pills" (py "Select Objective");
       Input "button" (py "Initialize Stratagem " ++ [0x1F680])]
  ∧ List.filter is_agent_chat (events (script x s)) = []
  ∧ List.filter (is_call "warning") (events (script x s)) = []
  ∧ List.filter is_download (events (script x s)) = [].
Proof.
  intros Hsetup Hidle.
  destruct (setup_api_keys_returned x s log0 llm tavily Hsetup)
    as (_ & Hlog & _).
  assert (script x s
          = ([St "set_page_config" (py "Stratagem AI"); St "markdown" custom_css]
             ++ log0 ++ events (build_ui s), Ok tt)) as Hrun.
  { destruct (script_after_setup x s log0 llm tavily Hsetup) as [Hevents Hend].
    destruct (script x s) as [log r]. unfold events, ending in *.
    cbn [fst snd] in *. rewrite Hidle in *. cbn in Hevents, Hend.
    rewrite Hevents, Hend. reflexivity. }
  split; [done|]. rewrite Hrun, Hlog. repeat split; reflexivity.
Qed.

Lemma idle_run_witness :
  List.filter is_agent_chat
    (events (script answering (session_with (py "Nvidia") false))) = []
  ∧ ending (script answering (session_with (py "Nvidia") false)) = Ok tt.
Proof.
  destruct (idle_run answering (session_with (py "Nvidia") false) _ _ _ eq_refl)
    as (Hrun & _ & Hchat & _); [reflexivity|].
  split; [done|]. by rewrite Hrun.
Defined.

(** ** Further properties of the tools *)

(** X6. Whatever the providers do (answer, answer badly, or raise), each
    tool shows exactly one toast, naming its argument, and then ends with a
    text: it never raises and never stops the run. *)
Theorem tool_toast_then_text (x : externals) (tavily : TavilyClient)
    (arg : pystr) :
  (∃ out, web_search x tavily arg
          = ([Toast ([0x1F30D] ++ py " Searching Google: " ++ arg ++ py "...")
                    [0x1F50D]], Ok out))
  ∧ (∃ out, get_stock_info x arg
            = ([Toast ([0x1F4C8] ++ py " Reading Market Data: " ++ arg ++ py "...")
                      [0x1F4CA]], Ok out))
  ∧ (∃ out, scrape_pricing_page x arg
            = ([Toast ([0x1F440] ++ py " Analyzing Website: " ++ arg ++ py "...")
                      [0x1F578; 0xFE0F]], Ok out)).
Proof.
  split; [|split].
  - unfold web_search.
    destruct (tavily_search x tavily _) as [answer|e]; [|by eexists].
    cbn. destruct (getitem answer _) as [results|e]; [|by eexists].
    cbn. destruct (iterate results) as [objs|e]; [|by eexists].
    cbn. destruct (mapM _ objs) as [context|e]; [|by eexists].
    cbn. destruct (str_join _ context) as [out|e]; by eexists.
  - unfold get_stock_info.
    destruct (yf_Ticker x arg) as [stock|e]; [|by eexists].
    cbn. destruct (ticker_info x stock) as [info|e]; by eexists.
  - unfold scrape_pricing_page.
    destruct (requests_get x _) as [r|e]; [|by eexists].
    cbn. destruct (BeautifulSoup x _ _) as [doc|e]; by eexists.
Qed.

Lemma mapM_getitem (key : pystr) (items vs : list pyobj) :
  Forall2 (has_entry key) items vs →
  mapM (λ obj, getitem obj key) items = Returns vs.
Proof.
  induction 1 as [|item v items vs (fields & -> & Hv) Hrest IH]; [done|].
  simpl. rewrite Hv. simpl. by rewrite IH.
Qed.

Lemma mapM_getitem_missing (key : pystr) (good vs : list pyobj)
    (fields : list (pystr * pyobj)) (rest : list pyobj) :
  Forall2 (has_entry key) good vs →
  entry key fields = None →
  mapM (λ obj, getitem obj key) (good ++ PyDict fields :: rest)
  = Raises (KeyError key).
Proof.
  intros Hgood Hmissing.
  induction Hgood as [|item v items vs (fs & -> & Hv) Hrest IH].
  - simpl. by rewrite Hmissing.
  - simpl. rewrite Hv. simpl. by rewrite IH.
Qed.

Lemma str_items_not_str (strs : list pystr) (v : pyobj) (rest : list pyobj) :
  (∀ s, v ≠ Atom (PyStr s)) →
  ∀ i, str_items i (((λ c, Atom (PyStr c)) <$> strs) ++ v :: rest)
       = Raises (TypeError (py "sequence item "
                            ++ str_int (Z.of_nat (i + length strs))
                            ++ py ": expected str instance, " ++ type_name v
                            ++ py " found")).
Proof.
  intros Hv. induction strs as [|c strs IH]; intros i.
  - cbn. rewrite Nat.add_0_r.
    destruct v as [[| | | |s]| |]; try done. by destruct (Hv s).
  - replace (i + length (c :: strs))%nat with (S i + length strs)%nat
      by (cbn [length]; lia).
    cbn [fmap list_fmap app str_items]. by rewrite IH.
Qed.

(** X7. A search answer that lacks a key makes the whole search an error
    text, with the missing key as the message: without [results] the tool
    returns [Search failed: 'results'], and as soon as one item has no
    [content] it returns [Search failed: 'content'], dropping the contents
    of the items before it. *)
Theorem web_search_missing_key (x : externals) (tavily : TavilyClient)
    (q : pystr) (entries : list (pystr * pyobj)) :
  tavily_search x tavily (search_request_of q) = Returns (PyDict entries) →
  (entry (py "results") entries = None →
   ending (web_search x tavily q) = Ok (py "Search failed: 'results'"))
  ∧ (∀ good vs fields rest,
       entry (py "results") entries
       = Some (PyList (good ++ PyDict fields :: rest)) →
       Forall2 (has_entry (py "content")) good vs →
       entry (py "content") fields = None →
       ending (web_search x tavily q) = Ok (py "Search failed: 'content'")).
Proof.
  intros Hcall. unfold search_request_of in Hcall. split.
  - intros Hresults. unfold web_search. rewrite Hcall. simpl.
    by rewrite Hresults.
  - intros good vs fields rest Hresults Hgood Hmissing.
    unfold web_search. rewrite Hcall. simpl. rewrite Hresults. simpl.
    by rewrite (mapM_getitem_missing _ _ _ _ _ Hgood Hmissing).
Qed.

Lemma web_search_missing_key_witness :
  ending (web_search (searching answering (PyDict refusal_entries))
            {| tavily_api_key := None |} (py "zzz"))
  = Ok (py "Search failed: 'results'")
  ∧ ending (web_search (searching answering (PyDict untitled_entries))
              {| tavily_api_key := None |} (py "zzz"))
    = Ok (py "Search failed: 'content'").
Proof.
  split.
  - refine (proj1 (web_search_missing_key
                     (searching answering (PyDict refusal_entries))
                     {| tavily_api_key := None |} (py "zzz") refusal_entries
                     eq_refl) _).
    reflexivity.
  - refine (proj2 (web_search_missing_key
                     (searching answering (PyDict untitled_entries))
                     {| tavily_api_key := None |} (py "zzz") untitled_entries
                     eq_refl)
              [PyDict [(py "content", Atom (PyStr (py "A")))]]
              [Atom (PyStr (py "A"))] [(py "title", Atom (PyStr (py "B")))] []
              eq_refl _ eq_refl).
    repeat constructor. by eexists.
Defined.

(** X8. When every result item has a [content] but one of them is not a
    string (a null, say), joining fails and the search returns the error
    text of [str.join], which names the position and the type of the first
    such content; no partial text is returned. *)
Theorem web_search_content_not_text (x : externals) (tavily : TavilyClient)
    (q : pystr) (entries : list (pystr * pyobj)) (items : list pyobj)
    (strs : list pystr) (v : pyobj) (rest : list pyobj) :
  tavily_search x tavily (search_request_of q) = Returns (PyDict entries) →
  entry (py "results") entries = Some (PyList items) →
  Forall2 (has_entry (py "content")) items
    (((λ c, Atom (PyStr c)) <$> strs) ++ v :: rest) →
  (∀ s, v ≠ Atom (PyStr s)) →
  ending (web_search x tavily q)
  = Ok (py "Search failed: sequence item " ++ str_int (Z.of_nat (length strs))
        ++ py ": expected str instance, " ++ type_name v ++ py " found").
Proof.
  intros Hcall Hresults Hitems Hv. unfold search_request_of in Hcall.
  unfold web_search. rewrite Hcall. simpl. rewrite Hresults. simpl.
  rewrite (mapM_getitem _ _ _ Hitems). simpl.
  unfold str_join. by rewrite (str_items_not_str strs v rest Hv 0).
Qed.

Lemma web_search_content_not_text_witness :
  ending (web_search (searching answering (PyDict null_content_entries))
            {| tavily_api_key := None |} (py "zzz"))
  = Ok (py "Search failed: sequence item 1: expected str instance, NoneType found").
Proof.
  refine (web_search_content_not_text
            (searching answering (PyDict null_content_entries))
            {| tavily_api_key := None |} (py "zzz") null_content_entries
            _ [py "A"] (Atom PyNone) [] eq_refl eq_refl _ _).
  - repeat constructor; by eexists.
  - intros s. discriminate.
Defined.

(** X9. The quote lookup reads the four fields only: two answers of the
    market-data provider that agree on price, market cap, 52-week high and
    recommendation give the same text, whatever else they hold. *)
Theorem get_stock_info_four_fields (x x' : externals) (t : pystr)
    (stock stock' : Ticker) (info info' : gmap pystr scalar) :
  yf_Ticker x t = Returns stock → ticker_info x stock = Returns info →
  yf_Ticker x' t = Returns stock' → ticker_info x' stock' = Returns info' →
  (∀ key, key ∈ FIELDS → info !! key = info' !! key) →
  get_stock_info x t = get_stock_info x' t.
Proof.
  intros Hstock Hinfo Hstock' Hinfo' Hsame.
  unfold get_stock_info. rewrite Hstock, Hstock'. cbn.
  rewrite Hinfo, Hinfo'. cbn. unfold quote_text, info_get.
  rewrite !Hsame by (unfold FIELDS; set_solver). done.
Qed.

Lemma get_stock_info_four_fields_witness :
  get_stock_info answering (py "NVDA")
  = get_stock_info
      (quoting answering (<[py "longName" := PyStr (py "NVIDIA Corporation")]> sample_info))
      (py "NVDA").
Proof.
  refine (get_stock_info_four_fields answering (quoting answering _) (py "NVDA")
            {| symbol := py "NVDA" |} {| symbol := py "NVDA" |} sample_info _
            eq_refl eq_refl eq_refl eq_refl _).
  intros key Hkey. unfold FIELDS in Hkey.
  rewrite !elem_of_cons, elem_of_nil in Hkey.
  destruct Hkey as [->|[->|[->|[->|[]]]]]; vm_compute; reflexivity.
Defined.

(** ** Further properties of the page text *)

Section PageTextFacts.
Implicit Types (s sub sep line chunk : pystr) (c : N).

Lemma contains_inside s inner sub before after :
  contains inner sub → s = before ++ inner ++ after → contains s sub.
Proof.
  intros (a & b & ->) ->. exists (before ++ a), (b ++ after).
  by rewrite <- !app_assoc.
Qed.

Lemma contains_length s sub : contains s sub → (length sub ≤ length s)%nat.
Proof. intros (a & b & ->). rewrite !length_app. lia. Qed.

(** [lstrip] drops a run of whitespace and stops at a character that is not
    whitespace; [rstrip] keeps a prefix. *)
Lemma lstrip_suffix s :
  ∃ spaces, s = spaces ++ lstrip s ∧ Forall (λ c, isspace c = true) spaces.
Proof.
  induction s as [|c s (spaces & Hs & Hspaces)]; [by exists []|].
  simpl. destruct (isspace c) eqn:Hc.
  - exists (c :: spaces). split; [by rewrite Hs at 1 | by constructor].
  - by exists [].
Qed.

Lemma lstrip_head s c rest : lstrip s = c :: rest → isspace c = false.
Proof.
  induction s as [|d s IH]; [done|]. simpl.
  destruct (isspace d) eqn:Hd; [done|]. by intros [= <- _].
Qed.

Lemma lstrip_spaces s : Forall (λ c, isspace c = true) s → lstrip s = [].
Proof. induction 1 as [|c s Hc Hs IH]; [done|]. simpl. by rewrite Hc. Qed.

Lemma rstrip_prefix s : ∃ spaces, s = rstrip s ++ spaces.
Proof.
  unfold rstrip. destruct (lstrip_suffix (reverse s)) as (spaces & Hs & _).
  exists (reverse spaces). rewrite <- reverse_app, <- Hs.
  by rewrite reverse_involutive.
Qed.

Lemma strip_inside s : ∃ before after, s = before ++ strip s ++ after.
Proof.
  destruct (lstrip_suffix s) as (before & Hs & _).
  destruct (rstrip_prefix (lstrip s)) as (after & Hl).
  exists before, after. unfold strip. by rewrite <- Hl.
Qed.

Lemma strip_head s c rest : strip s = c :: rest → isspace c = false.
Proof.
  unfold strip. intros Hstrip.
  destruct (rstrip_prefix (lstrip s)) as (after & Hl).
  rewrite Hstrip in Hl. by eapply lstrip_head.
Qed.

Lemma strip_spaces s : Forall (λ c, isspace c = true) s → strip s = [].
Proof. intros Hs. unfold strip. by rewrite lstrip_spaces. Qed.

Lemma startswith_prefix s sep : startswith s sep = true ↔ sep `prefix_of` s.
Proof.
  revert s. induction sep as [|a sep IH]; intros s.
  - split; [intros _; apply prefix_nil | by destruct s].
  - destruct s as [|b s]; simpl.
    + split; [done|]. intros [k Hk]. discriminate Hk.
    + rewrite andb_true_iff, IH, N.eqb_eq. split.
      * intros [-> Hp]. by apply prefix_cons.
      * intros [k Hk]. injection Hk as -> ->. split; [done | by eexists].
Qed.

(** The pieces of [split] hold no separator; the first one is a prefix of
    the string. *)
Lemma split_from_pieces sep :
  sep ≠ [] →
  ∀ s skip,
    Forall (λ piece, ¬ contains piece sep) (split_from sep skip s)
    ∧ (skip = 0%nat →
       ∃ piece pieces, split_from sep 0 s = piece :: pieces
                       ∧ piece `prefix_of` s).
Proof.
  intros Hsep.
  assert (¬ contains [] sep) as Hempty.
  { intros H. apply contains_length in H. destruct sep; [done|]. simpl in H. lia. }
  induction s as [|c s IH]; intros skip; cbn [split_from].
  - split; [by repeat constructor|]. intros _. by exists [], [].
  - destruct skip as [|k].
    + destruct (startswith (c :: s) sep) eqn:Hstart.
      * split.
        -- constructor; [done | apply IH].
        -- intros _. eexists [], _. split; [done | apply prefix_nil].
      * destruct (IH 0%nat) as [Hfree (piece & pieces & Hsplit & Hprefix)];
          [done|].
        rewrite Hsplit in *.
        assert (¬ contains (c :: piece) sep) as Hpiece.
        { intros ([|a before] & after & Heq).
          - assert (sep `prefix_of` c :: s) as Hp.
            { destruct Hprefix as [k ->]. exists (after ++ k).
              simpl in Heq. rewrite app_comm_cons, Heq. by rewrite <- app_assoc. }
            apply startswith_prefix in Hp. congruence.
          - injection Heq as -> Heq.
            inversion Hfree as [|? ? Hp _]; subst. apply Hp. by exists before, after. }
        split.
        -- inversion Hfree; subst. by constructor.
        -- intros _. exists (c :: piece), pieces.
           split; [done | by apply prefix_cons].
    + split; [apply IH | done].
Qed.

Lemma split_pieces_free s sep piece :
  sep ≠ [] → piece ∈ split s sep → ¬ contains piece sep.
Proof.
  intros Hsep Hin. destruct (split_from_pieces sep Hsep s 0) as [Hfree _].
  rewrite Forall_forall in Hfree. by apply Hfree.
Qed.


(** Every line of a truncated join is a non-empty prefix of a chunk. *)
Lemma splitlines_take_join_prefix (chunks : list pystr) :
  Forall (λ chunk, chunk ≠ [] ∧ single_line chunk) chunks →
  ∀ n, Forall (λ line, line ≠ []
                       ∧ ∃ chunk, chunk ∈ chunks ∧ line `prefix_of` chunk)
         (splitlines (take n (join [LF] chunks))).
Proof.
  assert (∀ chunk n (others : list pystr),
            single_line chunk → chunk ∈ others →
            Forall (λ line, line ≠ []
                            ∧ ∃ chunk, chunk ∈ others ∧ line `prefix_of` chunk)
              (splitlines (take n chunk))) as Hcut.
  { intros chunk n others Hsl Hin.
    destruct (take n chunk) as [|c cut] eqn:Hcut; [constructor|].
    rewrite splitlines_single_line; [| rewrite <- Hcut; by apply Forall_take | done].
    repeat constructor; [done|]. exists chunk. split; [done|].
    rewrite <- Hcut. apply prefix_take. }
  induction 1 as [|chunk rest [Hne Hsl] Hrest IH]; intros n; simpl.
  - rewrite take_nil. constructor.
  - destruct rest as [|chunk' rest].
    + apply Hcut; [done | apply list_elem_of_here].
    + remember (join [LF] (chunk' :: rest)) as tail.
      destruct (decide (n ≤ length chunk)%nat) as [Hle|Hgt].
      * rewrite take_app_le by done.
        apply Hcut; [done | apply list_elem_of_here].
      * rewrite take_app_ge by lia.
        destruct (n - length chunk)%nat as [|m] eqn:Hm; [lia|].
        simpl. rewrite splitlines_line_LF by done.
        constructor.
        -- split; [done|]. exists chunk. split; [apply list_elem_of_here | done].
        -- eapply Forall_impl; [apply IH|].
           intros line (Hline & chunk0 & Hin & Hp). split; [done|].
           exists chunk0. split; [by apply list_elem_of_further | done].
Qed.

Lemma phrases_single_line (text : pystr) :
  Forall (λ chunk, chunk ≠ [] ∧ single_line chunk) (phrases text).
Proof. apply page_chunks_single_line. Qed.

(** A phrase starts with a character that is not whitespace and holds no
    double space. *)
Lemma phrases_tidy (text chunk : pystr) :
  chunk ∈ phrases text →
  (∃ c rest, chunk = c :: rest ∧ isspace c = false)
  ∧ ¬ contains chunk (py "  ").
Proof.
  unfold phrases. intros Hin.
  apply list_elem_of_filter in Hin as [Hne Hin].
  apply list_elem_of_bind in Hin as (line & Hchunk & _).
  apply list_elem_of_fmap in Hchunk as (piece & -> & Hpiece).
  split.
  - destruct (strip piece) as [|c rest] eqn:Hstrip; [done|].
    exists c, rest. split; [done | by eapply strip_head].
  - intros Hdouble.
    destruct (strip_inside piece) as (before & after & Hp).
    eapply (split_pieces_free line (py "  ") piece); [done | done|].
    by eapply contains_inside.
Qed.

Lemma page_text_phrases (doc : soup) :
  page_text doc = take 5000 (join [LF] (phrases (visible_text doc))).
Proof.
  unfold page_text, phrases, visible_text. by rewrite get_text_decomposed.
Qed.

End PageTextFacts.

Lemma Forall_splitlines (P : N → Prop) (s : pystr) :
  Forall P s → Forall (Forall P) (splitlines s).
Proof.
  assert (∀ n (t : pystr), (length t < n)%nat → Forall P t →
            Forall (Forall P) (splitlines t)) as Hn.
  { intros n. induction n as [|n IH]; intros t Hlen Ht; [lia|].
    destruct t as [|c t]; simpl; [constructor|].
    simpl in Hlen. inversion Ht as [|? ? Hc Ht']; subst.
    destruct (is_linebreak c).
    - constructor; [constructor|].
      destruct (c =? CR); [|apply IH; [lia | done]].
      destruct t as [|d t]; [constructor|].
      simpl in Hlen. inversion Ht'; subst.
      destruct (d =? LF); apply IH; simpl; try lia; done.
    - assert (Forall (Forall P) (splitlines t)) as Hlines
        by (apply IH; [lia | done]).
      destruct (splitlines t) as [|line rest].
      + by repeat constructor.
      + inversion Hlines; subst. constructor; [by constructor | done]. }
  intros Hs. apply (Hn (S (length s))); [lia | done].
Qed.

(** A text of whitespace has no phrase. *)
Lemma phrases_blank (text : pystr) :
  Forall (λ c, isspace c = true) text → phrases text = [].
Proof.
  intros Hblank. unfold phrases.
  assert (Forall (λ chunk, chunk = [])
            (line ← strip <$> splitlines text; strip <$> split line (py "  ")))
    as Hempty.
  { apply Forall_forall. intros chunk Hin.
    apply list_elem_of_bind in Hin as (line & Hchunk & Hline).
    apply list_elem_of_fmap in Hline as (raw & -> & Hraw).
    pose proof (Forall_splitlines _ _ Hblank) as Hlines.
    rewrite Forall_forall in Hlines.
    rewrite (strip_spaces raw) in Hchunk by (by apply Hlines).
    apply list_elem_of_fmap in Hchunk as (piece & -> & Hpiece).
    apply list_elem_of_singleton in Hpiece as ->. reflexivity. }
  induction Hempty as [|chunk chunks -> Hrest IH]; [done|].
  rewrite filter_cons_False by (intros H; by apply H). exact IH.
Qed.





(** X12. Every line of the page text, cut or not, starts with a character
    that is not whitespace and holds no two consecutive spaces. *)
Theorem page_text_lines_tidy (doc : soup) :
  Forall (λ line, (∃ c rest, line = c :: rest ∧ isspace c = false)
                  ∧ ¬ contains line (py "  "))
    (splitlines (page_text doc)).
Proof.
  rewrite page_text_phrases.
  eapply Forall_impl;
    [apply splitlines_take_join_prefix, phrases_single_line|].
  intros line (Hne & chunk & Hin & [k Hk]).
  destruct (phrases_tidy _ _ Hin) as [(c & rest & Hchunk & Hc) Hfree].
  split.
  - destruct line as [|d line]; [done|].
    exists d, line. split; [done|].
    rewrite Hchunk in Hk. injection Hk as -> _. exact Hc.
  - intros Hdouble. apply Hfree.
    eapply (contains_inside chunk line _ [] k); [done|]. by rewrite Hk.
Qed.

(** X13. A page whose text outside script and style elements is only
    whitespace (or is empty) gives the empty string, not an error text. *)
Theorem scrape_pricing_page_blank (x : externals) (u : pystr)
    (r : http_response) (doc : soup) :
  requests_get x (get_request_of u) = Returns r →
  BeautifulSoup x (content r) (py "html.parser") = Returns doc →
  Forall (λ c, isspace c = true) (visible_text doc) →
  ending (scrape_pricing_page x u) = Ok [].
Proof.
  intros Hget Hsoup Hblank.
  rewrite (scrape_pricing_page_fetched x u r doc Hget Hsoup).
  by rewrite page_text_phrases, phrases_blank.
Qed.

Lemma scrape_pricing_page_blank_witness :
  ending (scrape_pricing_page (parsing answering blank_page)
            (py "https://example.com/"))
  = Ok [].
Proof.
  apply (scrape_pricing_page_blank (parsing answering blank_page)
           (py "https://example.com/")
           {| status_code := 404; content := [] |} blank_page);
    [reflexivity | reflexivity |].
  apply Forall_forall. intros c Hc. apply list_elem_of_In in Hc.
  revert c Hc. apply List.forallb_forall. vm_compute. reflexivity.
Defined.
